(** * PyPO front end: enumerations, data types, reflector-grid bindings, version resolution

    A shallow embedding of the Python sources

      - [setup.py]               (version resolution),
      - [src/PyPO/Enums.py]      (enumeration catalogue and its arithmetic),
      - [src/PyPO/PyPOTypes.py]  (result containers and grids),
      - [src/PyPO/BindRefl.py]   (grid-generation bindings),

    followed by the properties established about them.  Python exceptions
    are values of [exn]; a computation that may raise returns a [result].
    Double-precision numbers are the kernel's binary64 floats. *)

From Stdlib Require Import ZArith List String Ascii Floats Lia Bool.
From stdpp Require Import base gmap list strings pretty.

Set Warnings "-inexact-float".

Local Open Scope Z_scope.
Local Open Scope string_scope.

(* ===================================================================== *)
(** ** The fragment of the Python runtime the sources rely on *)
(* ===================================================================== *)

Module Py.

(** Exceptions raised by the modelled code, with their message. *)
Inductive exn : Type :=
| KeyError (key : string)
| ValueError (msg : string)
| IndexError (msg : string)
| TypeError (msg : string)
| AttributeError (msg : string)
| OverflowError (msg : string)
| ZeroDivisionError (msg : string)
| OSError (msg : string).

Inductive result (A : Type) : Type :=
| Ok (a : A)
| Raise (e : exn).
Arguments Ok {A} a.
Arguments Raise {A} e.

Definition bind {A B} (k : A -> result B) (r : result A) : result B :=
  match r with
  | Ok a => k a
  | Raise e => Raise e
  end.

#[export] Instance result_ret : MRet result := @Ok.
#[export] Instance result_bind : MBind result := @bind.

(** The double-quote character, and a one-character string. *)
Definition dquote : ascii := "034"%char.
Definition squote : ascii := "039"%char.
Definition str1 (c : ascii) : string := String c EmptyString.

(** [s.startswith(m)]. *)
Fixpoint startswith (m s : string) : bool :=
  match m, s with
  | EmptyString, _ => true
  | String c m', String d s' => Ascii.eqb c d && startswith m' s'
  | String _ _, EmptyString => false
  end.

(** [m in s] for strings: [m] occurs in [s] as a contiguous run. *)
Fixpoint contains (m s : string) : bool :=
  startswith m s ||
  match s with
  | EmptyString => false
  | String _ s' => contains m s'
  end.

(** [s.split(sep)] for a one-character separator: the pieces between the
    separators, in order; there is always at least one piece. *)
Fixpoint split (sep : ascii) (s : string) : list string :=
  match s with
  | EmptyString => [EmptyString]
  | String c s' =>
      if Ascii.eqb c sep then EmptyString :: split sep s'
      else match split sep s' with
           | p :: ps => String c p :: ps
           | [] => [str1 c]
           end
  end.

(** [l[-1]] on a list of strings ([IndexError] on an empty list). *)
Definition last_item (l : list string) : result string :=
  match List.rev l with
  | x :: _ => Ok x
  | [] => Raise (IndexError "list index out of range")
  end.

(** Removal of the leading, of the trailing, and of both runs of
    characters satisfying [p]. *)
Fixpoint lstrip (p : ascii -> bool) (s : string) : string :=
  match s with
  | EmptyString => EmptyString
  | String c s' => if p c then lstrip p s' else s
  end.

Fixpoint rstrip (p : ascii -> bool) (s : string) : string :=
  match s with
  | EmptyString => EmptyString
  | String c s' =>
      match rstrip p s' with
      | EmptyString => if p c then EmptyString else str1 c
      | r => String c r
      end
  end.

Definition strip_with (p : ascii -> bool) (s : string) : string :=
  rstrip p (lstrip p s).

(** [str.isspace] on the code points below 256 (text is modelled as a
    sequence of such code points): TAB, LF, VT, FF, CR, FS, GS, RS, US,
    the space, NEL and the no-break space. *)
Definition isspace (c : ascii) : bool :=
  let n := nat_of_ascii c in
  ((9 <=? n) && (n <=? 13))%nat || ((28 <=? n) && (n <=? 32))%nat
  || (n =? 133)%nat || (n =? 160)%nat.

(** [s.strip()] and [s.strip(chars)]. *)
Definition strip (s : string) : string := strip_with isspace s.

Fixpoint char_in (c : ascii) (chars : string) : bool :=
  match chars with
  | EmptyString => false
  | String d chars' => Ascii.eqb c d || char_in c chars'
  end.

Definition strip_chars (chars : string) (s : string) : string :=
  strip_with (fun c => char_in c chars) s.

(** Indexing a sequence with a Python integer: [0 .. len-1] count from the
    front, [-len .. -1] from the back, everything else is out of range. *)
Definition index {A} (l : list A) (i : Z) : option A :=
  let n := Z.of_nat (length l) in
  if ((0 <=? i) && (i <? n))%Z then l !! Z.to_nat i
  else if ((- n <=? i) && (i <? 0))%Z then l !! Z.to_nat (n + i)
  else None.

(** [str(i)] for an integer. *)
Definition str_int (i : Z) : string := pretty i.

End Py.
Import Py.

(* ===================================================================== *)
(** ** setup.py: version resolution *)
(* ===================================================================== *)

Module Setup.

Definition default_v : string := "0.0.0".
Definition marker : string := "__version__ =".
Definition quotes : string := String squote (String dquote EmptyString).

(** The loop over [f.readlines()], started with [version = default_v]:
    the first line that contains the marker is split at every [=], the
    last piece is taken, [strip()] removes its surrounding whitespace and
    a second [strip] its surrounding quote characters (single and double);
    the loop stops there. *)
Fixpoint scan (version : string) (lines : list string) : result string :=
  match lines with
  | [] => Ok version
  | line :: rest =>
      if contains marker line then
        piece ← last_item (split "=" line);
        Ok (strip_chars quotes (strip piece))
      else scan version rest
  end.

Definition version (lines : list string) : result string :=
  scan default_v lines.

End Setup.

(* ===================================================================== *)
(** ** Enums.py: the enumeration catalogue *)
(* ===================================================================== *)

Module Enums.

(** Plain Python numbers: [int] (unbounded) and [float] (binary64). *)
Inductive pynum : Type :=
| PInt (z : Z)
| PFloat (f : float).

(** [float(z)]: the nearest double, ties to even. *)
Definition float_of_Z (z : Z) : float :=
  SF2Prim (binary_normalize prec emax z 0 false).

(** The conversion an [int] operand undergoes in mixed arithmetic. *)
Definition to_float (n : pynum) : result float :=
  match n with
  | PFloat f => Ok f
  | PInt z =>
      let f := float_of_Z z in
      if is_infinity f then Raise (OverflowError "int too large to convert to float")
      else Ok f
  end.

(** [other * x] and [other / x] for a float [x]. *)
Definition mul_float (other : pynum) (x : float) : result pynum :=
  o ← to_float other; Ok (PFloat (o * x)%float).

Definition div_float (other : pynum) (x : float) : result pynum :=
  o ← to_float other;
  if (x =? 0)%float then Raise (ZeroDivisionError "float division by zero")
  else Ok (PFloat (o / x)%float).

(** [numpy.pi]. *)
Definition pi : float := 3.141592653589793%float.

Inductive category : Type := spatial | angular.

(** The body of [class Units]: each value is built from the tuples bound
    earlier in the class body ([M[0]] is the first entry of [M]). *)
Definition M_value : float * category := (1e3%float, spatial).
Definition CM_value : float * category := ((1e-2 * M_value.1)%float, spatial).
Definition MM_value : float * category := ((1e-3 * M_value.1)%float, spatial).
Definition UM_value : float * category := ((1e-6 * M_value.1)%float, spatial).
Definition NM_value : float * category := ((1e-9 * M_value.1)%float, spatial).
Definition IN_value : float * category := ((25.4 * MM_value.1)%float, spatial).
Definition MIL_value : float * category := ((IN_value.1 * 1e-3)%float, spatial).
Definition THOU_value : float * category := ((IN_value.1 * 1e-3)%float, spatial).
Definition UIN_value : float * category := ((IN_value.1 * 1e-6)%float, spatial).
Definition FT_value : float * category := ((float_of_Z 12 * IN_value.1)%float, spatial).
Definition DEG_value : float * category := (1%float, angular).
Definition AM_value : float * category := (60%float, angular).
Definition AS_value : float * category := (3600%float, angular).
Definition RAD_value : float * category :=
  ((float_of_Z 180 / pi * DEG_value.1)%float, angular).
Definition MRAD_value : float * category := ((RAD_value.1 * 1e-3)%float, angular).
Definition URAD_value : float * category := ((RAD_value.1 * 1e-6)%float, angular).

(** The members of [Units].  [THOU] has the value of [MIL], so [Enum]
    makes it a second name of that member. *)
Inductive Units : Type :=
| M | CM | MM | UM | NM | IN | MIL | UIN | FT
| DEG | AM | AS | RAD | MRAD | URAD.

Definition THOU : Units := MIL.

Definition Units_value (u : Units) : float * category :=
  match u with
  | M => M_value | CM => CM_value | MM => MM_value | UM => UM_value
  | NM => NM_value | IN => IN_value | MIL => MIL_value | UIN => UIN_value
  | FT => FT_value | DEG => DEG_value | AM => AM_value | AS => AS_value
  | RAD => RAD_value | MRAD => MRAD_value | URAD => URAD_value
  end.

(** The members of [Objects] and their string values. *)
Inductive Objects : Type := ELEMENT | GROUP | FRAME | FIELD | CURRENT.

Definition Objects_value (o : Objects) : string :=
  match o with
  | ELEMENT => "elements" | GROUP => "groups" | FRAME => "frames"
  | FIELD => "fields" | CURRENT => "currents"
  end.

(** What a call of an arithmetic special method gives back. *)
Inductive outcome : Type :=
| Returned (r : result pynum)
| NotImplemented.

(** [CustomEnumString]: [__rmul__] and [__rtruediv__]. *)
Definition CustomEnumString_rmul (self : Objects) (other : pynum) : outcome :=
  NotImplemented.
Definition CustomEnumString_rtruediv (self : Objects) (other : pynum) : outcome :=
  NotImplemented.

(** [CustomEnumTuple]: [__rmul__] and the method [rdiv]. *)
Definition CustomEnumTuple_rmul (self : Units) (other : pynum) : outcome :=
  Returned (mul_float other (Units_value self).1).
Definition CustomEnumTuple_rdiv (self : Units) (other : pynum) : outcome :=
  Returned (div_float other (Units_value self).1).

(** Enumeration members as operands, with the methods their class defines
    under each name ([Enum] itself defines no arithmetic method). *)
Inductive member : Type :=
| OfUnits (u : Units)
| OfObjects (o : Objects).

Definition method (m : member) (name : string) : option (pynum -> outcome) :=
  match m with
  | OfObjects o =>
      if String.eqb name "__rmul__" then Some (CustomEnumString_rmul o)
      else if String.eqb name "__rtruediv__" then Some (CustomEnumString_rtruediv o)
      else None
  | OfUnits u =>
      if String.eqb name "__rmul__" then Some (CustomEnumTuple_rmul u)
      else if String.eqb name "rdiv" then Some (CustomEnumTuple_rdiv u)
      else None
  end.

Inductive operator : Type := Mul | TrueDiv.

Definition symbol (op : operator) : string :=
  match op with Mul => "*" | TrueDiv => "/" end.
Definition reflected (op : operator) : string :=
  match op with Mul => "__rmul__" | TrueDiv => "__rtruediv__" end.

Definition unsupported (op : operator) : exn :=
  TypeError ("unsupported operand type(s) for " +:+ symbol op).

(** [number op member].  The number's own method does not know the member
    and answers NotImplemented, so Python turns to the reflected method of
    the member's class; when there is none, or it answers NotImplemented
    too, the expression raises [TypeError]. *)
Definition number_op_member (op : operator) (n : pynum) (m : member) : result pynum :=
  match method m (reflected op) with
  | Some f =>
      match f n with
      | Returned r => r
      | NotImplemented => Raise (unsupported op)
      end
  | None => Raise (unsupported op)
  end.

(** [member op number].  The enumeration classes define neither [__mul__]
    nor [__truediv__], and the number's reflected method answers
    NotImplemented for a member. *)
Definition member_op_number (op : operator) (m : member) (n : pynum) : result pynum :=
  Raise (unsupported op).

End Enums.

(* ===================================================================== *)
(** ** The fragment of numpy the data types rely on *)
(* ===================================================================== *)

Module np.

(** Array entries: real or complex doubles. *)
Inductive scalar : Type :=
| Real (x : float)
| Complex (re im : float).

Definition zero : scalar := Real 0%float.

Definition conjugate (z : scalar) : scalar :=
  match z with
  | Real x => Real x
  | Complex re im => Complex re (- im)%float
  end.

(** An array is its shape and its entries in row-major order. *)
Record ndarray : Type := array { shape : list nat ; data : list scalar }.

(** [a.size] is the product of the shape; every array numpy builds holds
    exactly that many entries. *)
Definition size_of (s : list nat) : nat := foldr Nat.mul 1%nat s.
Definition wf (a : ndarray) : Prop := length (data a) = size_of (shape a).

(** All index tuples of a shape, in row-major order, and the position of
    an index tuple in that order. *)
Fixpoint indices (s : list nat) : list (list nat) :=
  match s with
  | [] => [[]]
  | n :: s' => i ← seq 0 n; (cons i) <$> indices s'
  end.

Fixpoint offset (s idx : list nat) : nat :=
  match s, idx with
  | _ :: s', i :: idx' => (i * size_of s' + offset s' idx')%nat
  | _, _ => 0%nat
  end.

Definition item (a : ndarray) (idx : list nat) : scalar :=
  nth (offset (shape a) idx) (data a) zero.

(** [a.T]: the axes are reversed, [a.T[i_n, ..., i_1] = a[i_1, ..., i_n]]. *)
Definition T (a : ndarray) : ndarray :=
  {| shape := rev (shape a);
     data := (fun idx => item a (rev idx)) <$> indices (rev (shape a)) |}.

(** [a.conj()]: the entrywise complex conjugate, same shape. *)
Definition conj (a : ndarray) : ndarray :=
  {| shape := shape a; data := conjugate <$> data a |}.

(** [t[i]] for the shape tuple. *)
Definition shape_item (s : list nat) (i : Z) : result nat :=
  match Py.index s i with
  | Some n => Ok n
  | None => Raise (IndexError "tuple index out of range")
  end.

End np.

(* ===================================================================== *)
(** ** PyPOTypes.py: the data structures *)
(* ===================================================================== *)

Module PyPOTypes.

(** The names the module binds at its top level. *)
Definition names : list string :=
  ["resContainer"; "currents"; "fields"; "po_currents"; "rfield";
   "scalarfield"; "reflGrids"; "frame"].

(** Attribute access on the module, [PTypes.name]. *)
Definition module_getattr (name : string) : result string :=
  if bool_decide (name ∈ names) then Ok name
  else Raise (AttributeError ("module 'PyPO.PyPOTypes' has no attribute '" +:+ name +:+ "'")).

(** [class reflGrids]. *)
Record reflGrids : Type := new_reflGrids {
  x : np.ndarray; y : np.ndarray; z : np.ndarray;
  nx : np.ndarray; ny : np.ndarray; nz : np.ndarray;
  area : np.ndarray }.

(** [class scalarfield]. *)
Record scalarfield : Type := new_scalarfield { S : np.ndarray }.

Module resContainer.

(** The state of a [resContainer] instance: its fixed attributes, and the
    component attributes created by [setattr] under the names in
    [memlist]. *)
Record obj : Type := Obj {
  type : string ;
  memlist : list string ;
  shape : list nat ;
  size : nat ;
  attrs : gmap string np.ndarray }.

Definition ax : list string := ["x"; "y"; "z"].

(** [s[n]] for a string. *)
Definition str_item (s : string) (n : Z) : result string :=
  match Py.index (list_ascii_of_string s) n with
  | Some c => Ok (str1 c)
  | None => Raise (IndexError "string index out of range")
  end.

Definition list_item (l : list string) (i : Z) : result string :=
  match Py.index l i with
  | Some a => Ok a
  | None => Raise (IndexError "list index out of range")
  end.

(** The loop [for i, arg in enumerate(args)] of the constructor, from
    index [i] on, with the current [n], [memlist] and attributes. *)
Fixpoint init_loop (type : string) (args : list np.ndarray) (i n : Z)
    (memlist : list string) (attrs : gmap string np.ndarray)
    : result (list string * gmap string np.ndarray) :=
  match args with
  | [] => Ok (memlist, attrs)
  | arg :: rest =>
      let n := if (i mod 3 =? 0)%Z && negb (i =? 0)%Z then (n + 1)%Z else n in
      t ← str_item type n;
      a ← list_item ax (i - 3 * n);
      let memlist := (memlist ++ [t +:+ a])%list in
      label ← list_item memlist i;
      init_loop type rest (i + 1) n memlist (<[label := arg]> attrs)
  end.

(** [resContainer.__init__(self, *args, restype=None)]. *)
Definition init (args : list np.ndarray) (restype : option string) : result obj :=
  let type := match restype with None => "EH" | Some t => t end in
  arg0 ← match Py.index args 0 with
          | Some a => Ok a
          | None => Raise (IndexError "tuple index out of range")
          end;
  let shape := np.shape arg0 in
  s0 ← np.shape_item shape 0;
  s1 ← np.shape_item shape 1;
  '(memlist, attrs) ← init_loop type args 0 0 [] ∅;
  Ok {| type := type; memlist := memlist; shape := shape;
        size := (s0 * s1)%nat; attrs := attrs |}.

Definition out_of_range (idx : Z) : exn :=
  IndexError ("Index out of range: " +:+ str_int idx).

(** [__getitem__]: any exception of [getattr(self, self.memlist[idx])] is
    replaced by the [IndexError] naming [idx]. *)
Definition getitem (self : obj) (idx : Z) : result np.ndarray :=
  match Py.index (memlist self) idx with
  | Some label =>
      match attrs self !! label with
      | Some a => Ok a
      | None => Raise (out_of_range idx)
      end
  | None => Raise (out_of_range idx)
  end.

(** [__setitem__]: the object after [setattr(self, self.memlist[idx], item)]. *)
Definition setitem (self : obj) (idx : Z) (item : np.ndarray) : result obj :=
  match Py.index (memlist self) idx with
  | Some label =>
      Ok {| type := type self; memlist := memlist self; shape := shape self;
            size := size self; attrs := <[label := item]> (attrs self) |}
  | None => Raise (out_of_range idx)
  end.

(** Containers live in a store and are handled through references, so
    that a method can change its receiver and hand the same object back. *)
Abbreviation ref := positive (only parsing).
Abbreviation store := (gmap positive obj) (only parsing).

(** The statement [self[i] = f(self[i])] run on the store: the outcome and
    the store it leaves. *)
Definition update_item (f : np.ndarray -> np.ndarray) (self : ref) (i : Z)
    (h : store) : result () * store :=
  match h !! self with
  | None => (Raise (AttributeError "no such object"), h)
  | Some o =>
      match getitem o i with
      | Raise e => (Raise e, h)
      | Ok a =>
          match setitem o i (f a) with
          | Raise e => (Raise e, h)
          | Ok o' => (Ok (), <[self := o']> h)
          end
      end
  end.

(** [for i in range(...): body(i)], stopping at the first exception with
    the changes made so far in place. *)
Fixpoint for_each (body : Z -> store -> result () * store) (range : list Z)
    (h : store) : result () * store :=
  match range with
  | [] => (Ok (), h)
  | i :: rest =>
      match body i h with
      | (Ok _, h') => for_each body rest h'
      | (Raise e, h') => (Raise e, h')
      end
  end.

Definition range6 : list Z := [0; 1; 2; 3; 4; 5].

(** [T(self)]: [for i in range(6): self[i] = self[i].T], then [return self]. *)
Definition T (self : ref) (h : store) : result ref * store :=
  match for_each (update_item np.T self) range6 h with
  | (Ok _, h') => (Ok self, h')
  | (Raise e, h') => (Raise e, h')
  end.

(** [H(self)]: [for i in range(6): self[i] = self[i].conj().T], then
    [return self]. *)
Definition H (self : ref) (h : store) : result ref * store :=
  match for_each (update_item (fun a => np.T (np.conj a)) self) range6 h with
  | (Ok _, h') => (Ok self, h')
  | (Raise e, h') => (Raise e, h')
  end.

End resContainer.

(** [class currents] and [class fields]: the constructors with their tag. *)
Definition currents (Jx Jy Jz Mx My Mz : np.ndarray) : result resContainer.obj :=
  resContainer.init [Jx; Jy; Jz; Mx; My; Mz] (Some "JM").

Definition fields (Ex Ey Ez Hx Hy Hz : np.ndarray) : result resContainer.obj :=
  resContainer.init [Ex; Ey; Ez; Hx; Hy; Hz] (Some "EH").

End PyPOTypes.

(* ===================================================================== *)
(** ** BindRefl.py: the reflector-grid bindings *)
(* ===================================================================== *)

Module BindRefl.

(** The values a reflector dictionary holds, as far as the bindings look
    at them: strings, integers and tuples of integers. *)
Inductive pyval : Type :=
| VStr (s : string)
| VInt (z : Z)
| VTuple (l : list Z).

(** [str(v)], which an f-string applies to the value it interpolates. *)
Fixpoint join_ints (l : list Z) : string :=
  match l with
  | [] => EmptyString
  | [a] => str_int a
  | a :: rest => str_int a +:+ ", " +:+ join_ints rest
  end.

Definition str (v : pyval) : string :=
  match v with
  | VStr s => s
  | VInt i => str_int i
  | VTuple [a] => "(" +:+ str_int a +:+ ",)"
  | VTuple l => "(" +:+ join_ints l +:+ ")"
  end.

(** [d[key]] on a dictionary. *)
Definition dict_item (d : gmap string pyval) (key : string) : result pyval :=
  match d !! key with
  | Some v => Ok v
  | None => Raise (KeyError key)
  end.

(** [v[i]]. *)
Definition subscript (v : pyval) (i : Z) : result pyval :=
  match v with
  | VTuple l =>
      match Py.index l i with
      | Some a => Ok (VInt a)
      | None => Raise (IndexError "tuple index out of range")
      end
  | VStr s =>
      match Py.index (list_ascii_of_string s) i with
      | Some c => Ok (VStr (str1 c))
      | None => Raise (IndexError "string index out of range")
      end
  | VInt _ => Raise (TypeError "'int' object is not subscriptable")
  end.

(** [a * b]: the product of integers, the repetition of a sequence. *)
Fixpoint repeat_string (s : string) (n : nat) : string :=
  match n with
  | O => EmptyString
  | Datatypes.S n' => s +:+ repeat_string s n'
  end.

Definition mul (a b : pyval) : result pyval :=
  match a, b with
  | VInt m, VInt n => Ok (VInt (m * n))
  | VStr s, VInt n | VInt n, VStr s => Ok (VStr (repeat_string s (Z.to_nat n)))
  | VTuple l, VInt n | VInt n, VTuple l => Ok (VTuple (mjoin (replicate (Z.to_nat n) l)))
  | _, _ => Raise (TypeError "can't multiply sequence by non-int")
  end.

(** *** The native side *)

(** Modelled from the spec: the raw result-container record of
    [PyPO.Structs] (not among the sources), a native buffer per grid
    array, each holding the requested number of doubles. *)
Record reflcontainer : Type := new_reflcontainer {
  c_x : list float; c_y : list float; c_z : list float;
  c_nx : list float; c_ny : list float; c_nz : list float;
  c_area : list float }.

(** What a native routine computes for the grid point of a given slot. *)
Record point : Type := new_point {
  p_x : float; p_y : float; p_z : float;
  p_nx : float; p_ny : float; p_nz : float;
  p_area : float; p_weight : float }.

(** Modelled from the spec: the reflector-parameter record of
    [PyPO.Structs], which mirrors the key set of the dictionary. *)
Definition reflparams : Type := gmap string pyval.

(** A loaded engine: its two entry points.  An entry point returns
    nothing and writes one value into every slot of the buffers it is
    passed. *)
Record engine : Type := new_engine {
  native_generateGrid : reflparams -> bool -> bool -> nat -> point ;
  native_generatePOGrid : reflparams -> bool -> nat -> point }.

Definition write (f : nat -> float) (buf : list float) : list float :=
  imap (fun i _ => f i) buf.

Definition fill (pt : nat -> point) (res : reflcontainer) : reflcontainer :=
  {| c_x := write (fun i => p_x (pt i)) (c_x res);
     c_y := write (fun i => p_y (pt i)) (c_y res);
     c_z := write (fun i => p_z (pt i)) (c_z res);
     c_nx := write (fun i => p_nx (pt i)) (c_nx res);
     c_ny := write (fun i => p_ny (pt i)) (c_ny res);
     c_nz := write (fun i => p_nz (pt i)) (c_nz res);
     c_area := write (fun i => p_area (pt i)) (c_area res) |}.

(** The machine the code runs on: what [ctypes.CDLL] does with a file of
    the package directory. *)
Record world : Type := new_world { CDLL : string -> result engine }.

(** What a call does besides computing its result. *)
Inductive event : Type :=
| Loaded (file : string)
| NativeCall (entry : string).

(** A computation: the events so far and how it ended. *)
Record M (A : Type) : Type := Run { log : list event ; outcome : result A }.
Arguments Run {A} log outcome.
Arguments log {A} m.
Arguments outcome {A} m.

#[export] Instance M_ret : MRet M := fun A a => Run [] (Ok a).
#[export] Instance M_bind : MBind M := fun A B k m =>
  match outcome m with
  | Ok a => Run (log m ++ log (k a)) (outcome (k a))
  | Raise e => Run (log m) (Raise e)
  end.

Definition lift {A} (r : result A) : M A := Run [] r.
Definition emit (e : event) : M () := Run [e] (Ok ()).

(** One [ctypes.CDLL(os.path.join(path_cur, file))]. *)
Definition load (w : world) (file : string) : M engine :=
  match CDLL w file with
  | Ok lib => Run [Loaded file] (Ok lib)
  | Raise e => Run [] (Raise e)
  end.

(** [try: ... except: ...]. *)
Definition try_except {A} (body handler : M A) : M A :=
  match outcome body with
  | Ok a => body
  | Raise _ => Run (log body ++ log handler) (outcome handler)
  end.

Definition loadRefllib (w : world) : M engine :=
  try_except (load w "pyporefl.dll")
    (try_except (load w "libpyporefl.so")
       (load w "libpyporefl.dylib")).

(** Modelled from the spec: [BUtils.allfill_reflparams] (PyPO.BindUtils
    is not among the sources) fills the native parameter record from the
    dictionary. *)
Definition allfill_reflparams (reflparams_py : gmap string pyval) : reflparams :=
  reflparams_py.

(** Modelled from the spec: [BUtils.allocate_reflcontainer] allocates a
    result container for [size] elements. *)
Definition allocate_reflcontainer (size : pyval) : result reflcontainer :=
  match size with
  | VInt n =>
      if (n <? 0)%Z then Raise (ValueError "Array length must be >= 0")
      else let buf := replicate (Z.to_nat n) 0%float in
           Ok (new_reflcontainer buf buf buf buf buf buf buf)
  | _ => Raise (TypeError "an integer is required")
  end.

(** Modelled from the spec: the shape the caller hands to a conversion,
    a tuple of dimensions or a single length. *)
Definition as_shape (shape : pyval) : result (list nat) :=
  match shape with
  | VTuple l =>
      if forallb (fun d => 0 <=? d)%Z l then Ok (Z.to_nat <$> l)
      else Raise (ValueError "negative dimensions are not allowed")
  | VInt n =>
      if (n <? 0)%Z then Raise (ValueError "negative dimensions are not allowed")
      else Ok [Z.to_nat n]
  | VStr _ => Raise (TypeError "a shape is required")
  end.

(** Modelled from the spec: a native buffer becomes an array of the
    shape taken from the caller. *)
Definition as_array (buf : list float) (shape : list nat) : result np.ndarray :=
  if (length buf =? np.size_of shape)%nat
  then Ok {| np.shape := shape; np.data := np.Real <$> buf |}
  else Raise (ValueError "buffer does not match the shape").

(** Modelled from the spec: [BUtils.creflToObj] converts a filled result
    container into the arrays of a [reflGrids]. *)
Definition creflToObj (res : reflcontainer) (shape : pyval) : result PyPOTypes.reflGrids :=
  s ← as_shape shape;
  x ← as_array (c_x res) s;
  y ← as_array (c_y res) s;
  z ← as_array (c_z res) s;
  nx ← as_array (c_nx res) s;
  ny ← as_array (c_ny res) s;
  nz ← as_array (c_nz res) s;
  area ← as_array (c_area res) s;
  Ok (PyPOTypes.new_reflGrids x y z nx ny nz area).

(** Modelled from the spec: [BUtils.cweightsToObj] converts the weights
    buffer into an array of the shape taken from the caller. *)
Definition cweightsToObj (buf : list float) (shape : pyval) : result np.ndarray :=
  s ← as_shape shape;
  as_array buf s.

(** [generateGrid(reflparams_py, transform=True, spheric=True)]. *)
Definition generateGrid (w : world) (reflparams_py : gmap string pyval)
    (transform spheric : bool) : M PyPOTypes.reflGrids :=
  lib ← loadRefllib w;
  g ← lift (dict_item reflparams_py "gridsize");
  g0 ← lift (subscript g 0);
  g ← lift (dict_item reflparams_py "gridsize");
  g1 ← lift (subscript g 1);
  size ← lift (mul g0 g1);
  let inp := allfill_reflparams reflparams_py in
  res ← lift (allocate_reflcontainer size);
  _ ← emit (NativeCall "generateGrid");
  let res := fill (native_generateGrid lib inp transform spheric) res in
  shape ← lift (dict_item reflparams_py "gridsize");
  lift (creflToObj res shape).

(** Modelled from the spec: the PO-grid object, bundling grid, weights,
    mode and surface name. *)
Record po_grids : Type := new_po_grids {
  grid : PyPOTypes.reflGrids ;
  weights : np.ndarray ;
  mode : pyval ;
  surf : pyval }.

Definition missing_po_points (name : pyval) : string :=
  String dquote ("po_points" +:+ String dquote
    (" not defined on " +:+ str name +:+ ". Cannot generate PO grid.")).

(** Modelled from the spec: the container [generatePOGrid] hands to the
    engine, with a grid portion ([res[0]]) and a weights portion
    ([res[1]]), both allocated for [size] elements. *)
Definition allocate_pocontainer (size : pyval) : result (reflcontainer * list float) :=
  res ← allocate_reflcontainer size;
  Ok (res, c_area res).

(** [generatePOGrid(reflparams_py, transform=True)].  The result object
    is made by [PTypes.po_grids()], an attribute access on the module
    [PyPOTypes] followed by a call; what the code does with that object
    afterwards is modelled from the spec. *)
Definition generatePOGrid (w : world) (reflparams_py : gmap string pyval)
    (transform : bool) : M po_grids :=
  lib ← loadRefllib w;
  _ ← match reflparams_py !! "po_points" with
      | None =>
          name ← lift (dict_item reflparams_py "name");
          lift (Raise (ValueError (missing_po_points name)))
      | Some _ => mret ()
      end;
  p ← lift (dict_item reflparams_py "po_points");
  p0 ← lift (subscript p 0);
  p ← lift (dict_item reflparams_py "po_points");
  p1 ← lift (subscript p 1);
  size ← lift (mul p0 p1);
  _ ← lift (PyPOTypes.module_getattr "po_grids");
  let inp := allfill_reflparams reflparams_py in
  res ← lift (allocate_pocontainer size);
  _ ← emit (NativeCall "generatePOGrid");
  let pt := native_generatePOGrid lib inp transform in
  let res := (fill pt res.1, write (fun i => p_weight (pt i)) res.2) in
  grid ← lift (creflToObj res.1 size);
  po_points ← lift (dict_item reflparams_py "po_points");
  weights ← lift (cweightsToObj res.2 po_points);
  mode ← lift (dict_item reflparams_py "gmode");
  surf ← lift (dict_item reflparams_py "name");
  mret (new_po_grids grid weights mode surf).

End BindRefl.

(* ===================================================================== *)
(** ** Notions used in the statements *)
(* ===================================================================== *)

Import PyPOTypes.resContainer.
Local Open Scope Z_scope.

(** [m] occurs in [s]. *)
Definition Substring (m s : string) : Prop := exists a b, s = a +:+ m +:+ b.

Fixpoint all_chars (p : ascii -> bool) (s : string) : bool :=
  match s with
  | EmptyString => true
  | String c s' => p c && all_chars p s'
  end.

Definition first_char (s : string) : option ascii :=
  match s with
  | EmptyString => None
  | String c _ => Some c
  end.

Fixpoint last_char (s : string) : option ascii :=
  match s with
  | EmptyString => None
  | String c EmptyString => Some c
  | String _ s' => last_char s'
  end.

(** [r] is [s] without its leading and trailing characters that satisfy
    [p]: what was removed satisfies [p], and [r] neither starts nor ends
    with such a character. *)
Definition Stripped (p : ascii -> bool) (s r : string) : Prop :=
  exists pre post,
    s = pre +:+ r +:+ post
    /\ all_chars p pre = true /\ all_chars p post = true
    /\ (forall c, first_char r = Some c -> p c = false)
    /\ (forall c, last_char r = Some c -> p c = false).

Definition is_quote (c : ascii) : bool := char_in c Setup.quotes.

(** Version resolution as the specification words it: on the first line
    that contains the marker, the text that follows the marker (which
    ends with the equals sign), stripped of whitespace and quotes. *)
Fixpoint after_first (m s : string) : option string :=
  if startswith m s
  then Some (substring (String.length m) (String.length s - String.length m) s)
  else match s with
       | EmptyString => None
       | String _ s' => after_first m s'
       end.

Fixpoint version_as_stated (lines : list string) : string :=
  match lines with
  | [] => "0.0.0"
  | line :: rest =>
      match after_first Setup.marker line with
      | Some text => strip_chars Setup.quotes (strip text)
      | None => version_as_stated rest
      end
  end.

(** A container with its six components in place. *)
Definition six_members (o : obj) : Prop :=
  length (memlist o) = 6%nat /\ forall l, l ∈ memlist o -> is_Some (attrs o !! l).

(** Every component is an array as numpy builds them. *)
Definition wf_members (o : obj) : Prop :=
  forall l a, attrs o !! l = Some a -> np.wf a.

(** The type tag has the two letters the labels are made of. *)
Definition tag_ok (restype : option string) : Prop :=
  match restype with
  | None => True
  | Some t => (2 <= String.length t)%nat
  end.

(** The object [o] with other component attributes. *)
Definition set_attrs (o : obj) (m : gmap string np.ndarray) : obj :=
  {| type := type o; memlist := memlist o; shape := shape o; size := size o; attrs := m |}.

Fixpoint occurrences (k : string) (ls : list string) : nat :=
  match ls with
  | [] => 0%nat
  | l :: ls' => ((if decide (l = k) then 1 else 0) + occurrences k ls')%nat
  end.

(** The attributes after [f] has been applied under each label of [ls]
    in turn. *)
Definition alter_all (f : np.ndarray -> np.ndarray)
    (m : gmap string np.ndarray) (ls : list string) : gmap string np.ndarray :=
  foldl (fun m l => alter f l m) m ls.

(** *** Sample data *)

Definition sample_matrix : np.ndarray :=
  {| np.shape := [2; 3]%nat;
     np.data := [np.Real 1; np.Real 2; np.Real 3; np.Complex 4 1; np.Real 5; np.Real 6] |}.

Definition complex_matrix : np.ndarray :=
  {| np.shape := [2; 2]%nat;
     np.data := [np.Complex 1 2; np.Complex 3 4; np.Complex 5 6; np.Complex 7 8] |}.

Definition row_vector : np.ndarray :=
  {| np.shape := [3]%nat; np.data := [np.Real 1; np.Real 2; np.Real 3] |}.

Definition cube : np.ndarray :=
  {| np.shape := [1; 1; 2]%nat; np.data := [np.Real 1; np.Real 2] |}.

(** The object [fields(m, m, m, m, m, c)] for the sample matrices. *)
Definition sample_fields : obj :=
  {| type := "EH";
     memlist := ["Ex"; "Ey"; "Ez"; "Hx"; "Hy"; "Hz"];
     shape := [2; 3]%nat;
     size := 6%nat;
     attrs := <["Hz" := complex_matrix]> (<["Hy" := sample_matrix]> (<["Hx" := sample_matrix]>
              (<["Ez" := sample_matrix]> (<["Ey" := sample_matrix]> (<["Ex" := sample_matrix]> ∅))))) |}.

Definition sample_engine : BindRefl.engine :=
  {| BindRefl.native_generateGrid := fun _ _ _ i =>
       BindRefl.new_point (Enums.float_of_Z (Z.of_nat i)) 0 0 0 0 1 1 1;
     BindRefl.native_generatePOGrid := fun _ _ i =>
       BindRefl.new_point (Enums.float_of_Z (Z.of_nat i)) 0 0 0 0 1 1 1 |}.

(** A machine on which only the shared object [libpyporefl.so] loads. *)
Definition sample_world : BindRefl.world :=
  {| BindRefl.CDLL := fun file =>
       if String.eqb file "libpyporefl.so" then Ok sample_engine
       else Raise (OSError "cannot open shared object file") |}.

(** A machine on which no library loads. *)
Definition bare_world : BindRefl.world :=
  {| BindRefl.CDLL := fun file => Raise (OSError "cannot open shared object file") |}.

Definition sample_reflector : gmap string BindRefl.pyval :=
  <["gridsize" := BindRefl.VTuple [4; 5]]> (<["name" := BindRefl.VStr "mirror"]> ∅).

Definition sample_po_reflector : gmap string BindRefl.pyval :=
  <["po_points" := BindRefl.VTuple [2; 3]]> (<["gmode" := BindRefl.VStr "uv"]> sample_reflector).

(* ===================================================================== *)
(** ** PyPOTypes.py: [po_currents] *)
(* ===================================================================== *)

Module po_currents.

(** The state of a [po_currents] instance. *)
Record obj : Type := Obj {
  grid : PyPOTypes.reflGrids ;
  weights : PyPOTypes.scalarfield ;
  currents : PyPOTypes.resContainer.obj ;
  mode : string }.

(** [po_currents.__init__(self, x, y, z, nx, ny, nz, area, weights, Jx, Jy,
    Jz, Mx, My, Mz, mode='uv')]; [mode] is [None] when the caller leaves
    it out. *)
Definition init (x y z nx ny nz area weights Jx Jy Jz Mx My Mz : np.ndarray)
    (mode : option string) : result obj :=
  let grid := PyPOTypes.new_reflGrids x y z nx ny nz area in
  let weights := PyPOTypes.new_scalarfield weights in
  currents ← PyPOTypes.currents Jx Jy Jz Mx My Mz;
  Ok {| grid := grid; weights := weights; currents := currents;
        mode := match mode with None => "uv" | Some m => m end |}.

End po_currents.

(* ===================================================================== *)
(** ** Enums.py: the classes as [Enum] builds them *)
(* ===================================================================== *)

Module Enum.

(** The values the class bodies bind: [None], integers, strings, and the
    pairs of a float and a string of [Units]. *)
Inductive value : Type :=
| VNone
| VInt (z : Z)
| VStr (s : string)
| VPair (x : float) (c : string).

(** [a == b]. *)
Definition value_eqb (a b : value) : bool :=
  match a, b with
  | VNone, VNone => true
  | VInt m, VInt n => (m =? n)%Z
  | VStr s, VStr t => String.eqb s t
  | VPair x c, VPair y d => (x =? y)%float && String.eqb c d
  | _, _ => false
  end.

Record member : Type := Member { name : string ; value_of : value }.

(** A class: its members in definition order, and the member each name
    of the class body stands for. *)
Record class : Type := Class {
  members : list member ;
  names : list (string * member) }.

(** Class creation goes through the body in order: a name bound to a
    value that an earlier member already has becomes a second name of
    that member; any other name becomes a new member. *)
Fixpoint create (body : list (string * value)) (cls : class) : class :=
  match body with
  | [] => cls
  | (n, v) :: rest =>
      match List.find (fun m => value_eqb (value_of m) v) (members cls) with
      | Some m => create rest (Class (members cls) (names cls ++ [(n, m)]))
      | None =>
          let m := Member n v in
          create rest (Class (members cls ++ [m]) (names cls ++ [(n, m)]))
      end
  end.

Definition new (body : list (string * value)) : class := create body (Class [] []).

(** [Cls.NAME]. *)
Definition getattr (cls : class) (n : string) : result member :=
  match List.find (fun nm => String.eqb nm.1 n) (names cls) with
  | Some nm => Ok nm.2
  | None => Raise (AttributeError n)
  end.

(** [__str__] of [CustomEnumScalar], [CustomEnumString] and
    [CustomEnumTuple]: [self.name]. *)
Definition str (self : member) : string := name self.

Definition category_name (c : Enums.category) : string :=
  match c with Enums.spatial => "spatial" | Enums.angular => "angular" end.

Definition pair (v : float * Enums.category) : value := VPair v.1 (category_name v.2).

(** The class bodies of Enums.py. *)
Definition FieldComponents : list (string * value) :=
  [("Ex", VInt 0); ("Ey", VInt 1); ("Ez", VInt 2);
   ("Hx", VInt 3); ("Hy", VInt 4); ("Hz", VInt 5); ("NONE", VNone)].

Definition CurrentComponents : list (string * value) :=
  [("Jx", VInt 0); ("Jy", VInt 1); ("Jz", VInt 2);
   ("Mx", VInt 3); ("My", VInt 4); ("Mz", VInt 5)].

Definition Projections : list (string * value) :=
  [("xy", VInt 0); ("yz", VInt 1); ("zx", VInt 2);
   ("yx", VInt 3); ("zy", VInt 4); ("xz", VInt 5)].

Definition Units : list (string * value) :=
  [("M", pair Enums.M_value); ("CM", pair Enums.CM_value); ("MM", pair Enums.MM_value);
   ("UM", pair Enums.UM_value); ("NM", pair Enums.NM_value); ("IN", pair Enums.IN_value);
   ("MIL", pair Enums.MIL_value); ("THOU", pair Enums.THOU_value);
   ("UIN", pair Enums.UIN_value); ("FT", pair Enums.FT_value);
   ("DEG", pair Enums.DEG_value); ("AM", pair Enums.AM_value); ("AS", pair Enums.AS_value);
   ("RAD", pair Enums.RAD_value); ("MRAD", pair Enums.MRAD_value);
   ("URAD", pair Enums.URAD_value)].

Definition Scales : list (string * value) := [("LIN", VInt 0); ("dB", VInt 2)].

Definition Objects : list (string * value) :=
  [("ELEMENT", VStr "elements"); ("GROUP", VStr "groups"); ("FRAME", VStr "frames");
   ("FIELD", VStr "fields"); ("CURRENT", VStr "currents")].

Definition Modes : list (string * value) := [("REL", VInt 0); ("ABS", VInt 1)].

Definition AperShapes : list (string * value) := [("ELL", VInt 0); ("RECT", VInt 1)].

Definition OptDoF : list (string * value) :=
  [("TX", VInt 0); ("TY", VInt 1); ("TZ", VInt 2);
   ("RX", VInt 3); ("RY", VInt 4); ("RZ", VInt 5)].

Definition Dielectrics : list (string * value) :=
  [("BK7", VInt 1); ("FS", VInt 2); ("K5", VInt 3)].

End Enum.

(** The member of [Units] each constructor stands for. *)
Definition Units_name (u : Enums.Units) : string :=
  match u with
  | Enums.M => "M" | Enums.CM => "CM" | Enums.MM => "MM" | Enums.UM => "UM"
  | Enums.NM => "NM" | Enums.IN => "IN" | Enums.MIL => "MIL" | Enums.UIN => "UIN"
  | Enums.FT => "FT" | Enums.DEG => "DEG" | Enums.AM => "AM" | Enums.AS => "AS"
  | Enums.RAD => "RAD" | Enums.MRAD => "MRAD" | Enums.URAD => "URAD"
  end.

Definition all_Units : list Enums.Units :=
  [Enums.M; Enums.CM; Enums.MM; Enums.UM; Enums.NM; Enums.IN; Enums.MIL; Enums.UIN;
   Enums.FT; Enums.DEG; Enums.AM; Enums.AS; Enums.RAD; Enums.MRAD; Enums.URAD].

(* ===================================================================== *)
(** ** setup.py: the build step *)
(* ===================================================================== *)

Module build_ext.

(** What the build step asks of the machine, in order. *)
Inductive action : Type :=
| Mkdir (path : string)
| Chdir (path : string)
| Spawn (cmd : list string).

(** The machine the build runs on: [os.name], how paths resolve, where
    setuptools puts an extension (the text of
    [extdir.parent.absolute()], from the directory the process is in and
    the extension's name), and how creating a directory, entering one and
    running a command end, seen from the directory the process is in. *)
Record host : Type := Host {
  os_name : string ;
  isabs : string -> bool ;
  join : string -> string -> string ;
  ext_dir : string -> string -> string ;
  mkdir : string -> string -> result () ;
  enter : string -> string -> result () ;
  execute : string -> list string -> result () }.

(** The command object: the text of [pathlib.Path(self.build_temp)],
    [self.dry_run] and the names of [self.extensions]. *)
Record command : Type := Command {
  build_temp : string ;
  dry_run : bool ;
  extensions : list string }.

(** The process: its working directory and what it has asked for so
    far. *)
Record process : Type := Process { cwd : string ; trace : list action }.

(** A statement: it ends normally or raises, and leaves a process. *)
Definition step : Type := process -> result () * process.

(** Statements one after the other; the first that raises ends the
    sequence. *)
Fixpoint in_order (steps : list step) : step := fun p =>
  match steps with
  | [] => (Ok (), p)
  | s :: rest =>
      match s p with
      | (Ok _, p) => in_order rest p
      | (Raise e, p) => (Raise e, p)
      end
  end.

Definition record (a : action) (p : process) : process :=
  {| cwd := cwd p; trace := (trace p ++ [a])%list |}.

(** [build_temp.mkdir(parents=True, exist_ok=True)]. *)
Definition make_dir (m : host) (path : string) : step := fun p =>
  (mkdir m (cwd p) path, record (Mkdir path) p).

(** [os.chdir(path)]. *)
Definition chdir (m : host) (path : string) : step := fun p =>
  match enter m (cwd p) path with
  | Ok _ =>
      (Ok (), {| cwd := if isabs m path then path else join m (cwd p) path;
                 trace := (trace p ++ [Chdir path])%list |})
  | Raise e => (Raise e, record (Chdir path) p)
  end.

(** [self.spawn(cmd)]: the command is logged, and run unless
    [self.dry_run] is set. *)
Definition spawn (m : host) (self : command) (cmd : list string) : step := fun p =>
  (if dry_run self then Ok () else execute m (cwd p) cmd, record (Spawn cmd) p).

Definition config : string := "Release " +:+ "--j4".

Definition cmake_args (m : host) (cwd0 ext : string) : list string :=
  ["-DCMAKE_LIBRARY_OUTPUT_DIRECTORY=" +:+ ext_dir m cwd0 ext;
   "-DCMAKE_BUILD_TYPE=" +:+ config].

Definition build_args : list string := ["--config"; config].

(** [build_cmake(self, ext)]. *)
Definition build_cmake (m : host) (self : command) (ext : string) : step := fun p =>
  let cwd0 := cwd p in
  in_order
    [ make_dir m (build_temp self);
      chdir m (build_temp self);
      spawn m self (["cmake"; cwd0] ++ cmake_args m cwd0 ext)%list;
      (if negb (dry_run self) then
         if negb (String.eqb (os_name m) "nt")
         then spawn m self (["cmake"; "--build"; "."] ++ build_args)%list
         else spawn m self ["cmake"; "--build"; "."]
       else in_order []);
      chdir m cwd0 ] p.

(** [run(self)]: [for ext in self.extensions: self.build_cmake(ext)]. *)
Definition run (m : host) (self : command) : step :=
  in_order (build_cmake m self <$> extensions self).

(** The commands handed to [self.spawn], in order. *)
Definition spawned (t : list action) : list (list string) :=
  omap (fun a => match a with Spawn cmd => Some cmd | _ => None end) t.

(** The commands one extension asks for. *)
Definition commands_for (m : host) (self : command) (cwd0 ext : string) : list (list string) :=
  (["cmake"; cwd0] ++ cmake_args m cwd0 ext)%list
  :: (if dry_run self then []
      else if String.eqb (os_name m) "nt" then [["cmake"; "--build"; "."]]
      else [["cmake"; "--build"; "."; "--config"; "Release --j4"]]).

End build_ext.

(** A POSIX machine where every directory can be made and entered; the
    commands that fail are given by [fails]. *)
Definition posix_host (fails : list string -> bool) : build_ext.host :=
  {| build_ext.os_name := "posix";
     build_ext.isabs := fun path => startswith "/" path;
     build_ext.join := fun dir path => dir +:+ "/" +:+ path;
     build_ext.ext_dir := fun dir ext => dir +:+ "/build/lib/PyPO";
     build_ext.mkdir := fun _ _ => Ok ();
     build_ext.enter := fun _ _ => Ok ();
     build_ext.execute := fun _ cmd =>
       if fails cmd then Raise (OSError "command failed") else Ok () |}.

Definition sample_command : build_ext.command :=
  {| build_ext.build_temp := "build/temp";
     build_ext.dry_run := false;
     build_ext.extensions := ["PyPO/libs"] |}.

Definition sample_process : build_ext.process :=
  {| build_ext.cwd := "/home/user/PyPO"; build_ext.trace := [] |}.

(** A container built from three arrays only. *)
Definition sample_short : obj :=
  {| type := "EH";
     memlist := ["Ex"; "Ey"; "Ez"];
     shape := [2; 3]%nat;
     size := 6%nat;
     attrs := <["Ez" := complex_matrix]> (<["Ey" := sample_matrix]> (<["Ex" := sample_matrix]> ∅)) |}.

(** Six arrays as an argument list. *)
Definition six (a0 a1 a2 a3 a4 a5 : np.ndarray) : list np.ndarray :=
  [a0; a1; a2; a3; a4; a5].

(* ===================================================================== *)
(** ** Properties *)
(* ===================================================================== *)

#[local] Arguments String.append !_ _ / : simpl nomatch.

(** *** Strings *)

Lemma append_assoc (a b c : string) : (a +:+ b) +:+ c = a +:+ (b +:+ c).
Proof. induction a as [|x a IH]; simpl; [reflexivity | now rewrite IH]. Qed.

Lemma append_empty_r (a : string) : a +:+ EmptyString = a.
Proof. induction a as [|x a IH]; simpl; [reflexivity | now rewrite IH]. Qed.

Lemma prefix_spec (m s : string) :
  startswith m s = true <-> exists b, s = m +:+ b.
Proof.
  revert s; induction m as [|c m IH]; intros s; simpl.
  - split; [intros _; now exists s | reflexivity].
  - destruct s as [|d s].
    + split; [discriminate | intros [b Hb]; discriminate].
    + rewrite andb_true_iff, Ascii.eqb_eq, IH. split.
      * intros [-> [b ->]]. now exists b.
      * intros [b [= -> ->]]. split; [reflexivity | now exists b].
Qed.

Lemma contains_spec (m s : string) : contains m s = true <-> Substring m s.
Proof.
  induction s as [|c s IH]; simpl.
  - rewrite orb_false_r, prefix_spec. split.
    + intros [b Hb]. now exists EmptyString, b.
    + intros (a & b & Hab). destruct a; [now exists b | discriminate].
  - rewrite orb_true_iff, prefix_spec, IH. split.
    + intros [[b Hb] | (a & b & Hab)].
      * now exists EmptyString, b.
      * exists (String c a), b. simpl. now rewrite Hab.
    + intros (a & b & Hab). destruct a as [|x a]; simpl in Hab.
      * left. now exists b.
      * right. injection Hab as _ Hs. now exists a, b.
Qed.

Lemma split_nonempty sep s : split sep s <> [].
Proof.
  destruct s as [|c s]; simpl; [discriminate|].
  destruct (Ascii.eqb c sep); [discriminate|]. destruct (split sep s); discriminate.
Qed.

Lemma split_append sep body tail :
  split sep (body +:+ String sep tail) = (split sep body ++ split sep tail)%list.
Proof.
  induction body as [|c body IH]; simpl.
  - now rewrite Ascii.eqb_refl.
  - destruct (Ascii.eqb c sep); rewrite IH; [reflexivity|].
    pose proof (split_nonempty sep body). destruct (split sep body); [congruence | reflexivity].
Qed.

Lemma split_without sep t : char_in sep t = false -> split sep t = [t].
Proof.
  induction t as [|c t IH]; simpl; [reflexivity|].
  rewrite orb_false_iff, Ascii.eqb_sym. intros [-> Ht]. now rewrite IH.
Qed.

Lemma last_piece sep body tail :
  char_in sep tail = false ->
  last_item (split sep (body +:+ String sep tail)) = Ok tail.
Proof.
  intros Ht. unfold last_item.
  rewrite split_append, (split_without _ _ Ht), rev_app_distr. reflexivity.
Qed.

Lemma lstrip_spec p s :
  exists pre, s = pre +:+ lstrip p s /\ all_chars p pre = true
              /\ forall c, first_char (lstrip p s) = Some c -> p c = false.
Proof.
  induction s as [|c s (pre & Hs & Hpre & Hfirst)]; simpl.
  - exists EmptyString. repeat split. discriminate.
  - destruct (p c) eqn:Hc.
    + exists (String c pre). simpl. rewrite Hc, Hpre, <- Hs. now repeat split.
    + exists EmptyString. repeat split. simpl. now intros ? [= <-].
Qed.

Lemma rstrip_spec p s :
  exists post, s = rstrip p s +:+ post /\ all_chars p post = true
               /\ (forall c, last_char (rstrip p s) = Some c -> p c = false)
               /\ (forall c, first_char (rstrip p s) = Some c -> first_char s = Some c).
Proof.
  induction s as [|c s (post & Hs & Hpost & Hlast & Hfirst)]; simpl.
  - exists EmptyString. repeat split; discriminate.
  - destruct (rstrip p s) as [|d r] eqn:Hr.
    + simpl in Hs. subst post. destruct (p c) eqn:Hc.
      * exists (String c s). simpl. rewrite Hc, Hpost. repeat split; discriminate.
      * exists s. simpl. repeat split; try done. now intros ? [= <-].
    + exists post. simpl in *. rewrite <- Hs. repeat split; try done.
Qed.

Lemma strip_with_Stripped p s : Stripped p s (strip_with p s).
Proof.
  unfold strip_with.
  destruct (lstrip_spec p s) as (pre & Hs & Hpre & Hfirst).
  destruct (rstrip_spec p (lstrip p s)) as (post & Hr & Hpost & Hlast & Hkeep).
  exists pre, post. repeat split; try done.
  - now rewrite <- Hr.
  - intros c Hc. apply Hfirst, Hkeep, Hc.
Qed.

Lemma all_chars_app p a b : all_chars p (a +:+ b) = all_chars p a && all_chars p b.
Proof. induction a as [|c a IH]; simpl; [done|]. by rewrite IH, andb_assoc. Qed.

Lemma lstrip_all p t : all_chars p t = true -> lstrip p t = EmptyString.
Proof.
  induction t as [|c t IH]; simpl; [done|].
  intros [Hc Ht]%andb_true_iff. rewrite Hc. by apply IH.
Qed.

Lemma rstrip_all p t : all_chars p t = true -> rstrip p t = EmptyString.
Proof.
  induction t as [|c t IH]; simpl; [done|].
  intros [Hc Ht]%andb_true_iff. by rewrite (IH Ht), Hc.
Qed.

Lemma lstrip_app p pre t : all_chars p pre = true -> lstrip p (pre +:+ t) = lstrip p t.
Proof.
  induction pre as [|c pre IH]; simpl; [done|].
  intros [Hc Hpre]%andb_true_iff. rewrite Hc. by apply IH.
Qed.

Lemma rstrip_app p r post : all_chars p post = true -> rstrip p (r +:+ post) = rstrip p r.
Proof.
  intros Hpost. induction r as [|c r IH]; simpl; [by apply rstrip_all|]. by rewrite IH.
Qed.

Lemma rstrip_kept p r :
  (forall c, last_char r = Some c -> p c = false) -> rstrip p r = r.
Proof.
  induction r as [|c r IH]; [done|]. intros Hlast. cbn [rstrip].
  destruct r as [|d r].
  - simpl. by rewrite (Hlast c eq_refl).
  - rewrite IH; [done|]. intros x Hx. by apply Hlast.
Qed.

(** What [Stripped] describes is what [strip_with] computes, and nothing
    else. *)
Lemma Stripped_unique p s r : Stripped p s r <-> r = strip_with p s.
Proof.
  split; [|intros ->; apply strip_with_Stripped].
  intros (pre & post & -> & Hpre & Hpost & Hfirst & Hlast). unfold strip_with.
  rewrite (lstrip_app _ _ _ Hpre). destruct r as [|c r].
  - simpl. by rewrite (lstrip_all _ _ Hpost).
  - simpl. rewrite (Hfirst c eq_refl).
    change (String c (r +:+ post)) with (String c r +:+ post).
    by rewrite (rstrip_app _ _ _ Hpost), (rstrip_kept _ _ Hlast).
Qed.

(** *** setup.py: version resolution *)

Lemma scan_skips v before rest :
  Forall (fun l => ~ Substring Setup.marker l) before ->
  Setup.scan v (before ++ rest) = Setup.scan v rest.
Proof.
  induction 1 as [|l before Hl _ IH]; simpl; [reflexivity|].
  destruct (contains Setup.marker l) eqn:Hc; [|exact IH].
  now apply contains_spec in Hc.
Qed.

(** C5 (amended): version resolution scans the lines for the first one
    containing the marker [__version__ =]; the resolved version is the
    text after the last equals sign of that line, stripped of its
    surrounding whitespace and then of its surrounding quote characters.
    When no line contains the marker the resolved version is exactly
    the string 0.0.0. *)
Theorem version_resolution (lines : list string) :
  (Forall (fun l => ~ Substring Setup.marker l) lines ->
   Setup.version lines = Ok "0.0.0")
  /\ (forall before line after body tail,
        lines = (before ++ line :: after)%list ->
        Forall (fun l => ~ Substring Setup.marker l) before ->
        Substring Setup.marker line ->
        line = body +:+ String "=" tail ->
        char_in "=" tail = false ->
        exists trimmed v,
          Stripped isspace tail trimmed
          /\ Stripped is_quote trimmed v
          /\ Setup.version lines = Ok v).
Proof.
  split.
  - intros Hno. unfold Setup.version.
    rewrite <- (app_nil_r lines), (scan_skips _ _ _ Hno). reflexivity.
  - intros before line after body tail -> Hbefore Hline -> Htail.
    exists (strip tail), (strip_chars Setup.quotes (strip tail)).
    split; [apply strip_with_Stripped|]. split; [apply strip_with_Stripped|].
    unfold Setup.version. rewrite (scan_skips _ _ _ Hbefore). simpl.
    apply contains_spec in Hline. rewrite Hline.
    now rewrite (last_piece _ _ _ Htail).
Qed.

Lemma version_resolution_witness :
  exists trimmed v,
    Stripped isspace " '2.4.1'" trimmed
    /\ Stripped is_quote trimmed v
    /\ Setup.version ["import os"; "__version__ = '2.4.1'"; "x = 1"] = Ok v.
Proof.
  apply (proj2 (version_resolution ["import os"; "__version__ = '2.4.1'"; "x = 1"])
           ["import os"] "__version__ = '2.4.1'" ["x = 1"] "__version__ " " '2.4.1'").
  - reflexivity.
  - repeat constructor. intros H. apply contains_spec in H. discriminate.
  - apply contains_spec. reflexivity.
  - reflexivity.
  - reflexivity.
Defined.

(** The line [__version__ = 'a=b'] resolves to [b], not to the text [a=b]
    that follows the marker. *)
Lemma version_after_the_marker_refuted :
  Setup.version ["__version__ = 'a=b'"] = Ok "b"
  /\ version_as_stated ["__version__ = 'a=b'"] = "a=b"
  /\ Setup.version ["__version__ = 'a=b'"] <> Ok (version_as_stated ["__version__ = 'a=b'"]).
Proof. repeat split. discriminate. Qed.


(** *** numpy arrays: transposition and conjugation *)

Section arrays.
Import np.
Implicit Types (s idx : list nat) (a : ndarray).

Lemma size_of_app s1 s2 : size_of (s1 ++ s2) = (size_of s1 * size_of s2)%nat.
Proof. induction s1 as [|n s1 IH]; simpl; [lia | rewrite IH; lia]. Qed.

Lemma size_of_rev s : size_of (rev s) = size_of s.
Proof. induction s as [|n s IH]; simpl; [done|]. rewrite size_of_app, IH. simpl. lia. Qed.

Lemma elem_of_indices s idx : idx ∈ indices s <-> Forall2 lt idx s.
Proof.
  revert idx; induction s as [|n s IH]; intros idx; simpl.
  - rewrite list_elem_of_singleton. split; [intros ->; constructor | by inversion 1].
  - rewrite list_elem_of_bind. split.
    + intros (i & Hidx & Hi). apply list_elem_of_fmap in Hidx as (idx' & -> & Hidx').
      apply elem_of_seq in Hi. constructor; [lia | by apply IH].
    + inversion 1 as [|i ? idx' ? Hi Hidx']; subst. exists i. split.
      * apply list_elem_of_fmap. exists idx'. split; [done | by apply IH].
      * apply elem_of_seq. lia.
Qed.

Lemma offsets_of_indices s : offset s <$> indices s = seq 0 (size_of s).
Proof.
  induction s as [|n s IH]; simpl; [done|].
  assert (forall j : nat, offset (n :: s) <$> (seq j n ≫= fun i => cons i <$> indices s)
                    = seq (j * size_of s) (n * size_of s)) as Hgen; [|apply (Hgen 0%nat)].
  clear -IH. induction n as [|n IHn]; intros j; [done|].
  cbn [seq]. rewrite bind_cons, fmap_app, IHn, <- list_fmap_compose.
  rewrite (list_fmap_ext (offset (n :: s) ∘ cons j) (Nat.add (j * size_of s) ∘ offset s))
    by done.
  rewrite list_fmap_compose, IH, fmap_add_seq, Nat.add_0_r.
  replace (S j * size_of s)%nat with (j * size_of s + size_of s)%nat by lia.
  replace (S n * size_of s)%nat with (size_of s + n * size_of s)%nat by lia.
  by rewrite seq_app.
Qed.

Lemma length_indices s : length (indices s) = size_of s.
Proof. by rewrite <- (length_fmap (offset s)), offsets_of_indices, length_seq. Qed.

Lemma lookup_indices s idx : idx ∈ indices s -> indices s !! offset s idx = Some idx.
Proof.
  intros (k & Hk)%list_elem_of_lookup.
  assert ((offset s <$> indices s) !! k = Some (offset s idx)) as Ho
    by (by rewrite list_lookup_fmap, Hk).
  rewrite offsets_of_indices in Ho. apply lookup_seq in Ho as [Ho _].
  simpl in Ho. by rewrite Ho.
Qed.

Lemma indices_rev s idx : idx ∈ indices s -> rev idx ∈ indices (rev s).
Proof.
  rewrite !elem_of_indices. induction 1; simpl; [constructor|].
  apply Forall2_app; [done | by constructor].
Qed.

Lemma fmap_nth_seq {A} (l : list A) (d : A) :
  (fun k => nth k l d) <$> seq 0 (length l) = l.
Proof.
  apply list_eq. intros i. rewrite list_lookup_fmap.
  destruct (decide (i < length l)%nat) as [Hi|Hi].
  - rewrite lookup_seq_lt by done. simpl.
    destruct (lookup_lt_is_Some_2 l i Hi) as [x Hx].
    by rewrite (nth_lookup_Some _ _ _ _ Hx), Hx.
  - rewrite lookup_seq_ge, lookup_ge_None_2 by lia. done.
Qed.

Lemma wf_T a : wf (T a).
Proof. unfold wf, T. simpl. by rewrite length_fmap, length_indices. Qed.

Lemma wf_conj a : wf a -> wf (conj a).
Proof. unfold wf, conj. simpl. by rewrite length_fmap. Qed.

(** Transposing twice gives the array back. *)
Lemma T_involutive a : wf a -> T (T a) = a.
Proof.
  destruct a as [s l]. unfold wf, T. simpl. intros Hl.
  rewrite rev_involutive. f_equal.
  transitivity ((fun k => nth k l zero) <$> seq 0 (length l)); [|apply fmap_nth_seq].
  rewrite Hl, <- offsets_of_indices, <- list_fmap_compose.
  apply list_fmap_ext. intros _ idx Hidx%list_elem_of_lookup_2.
  unfold item. simpl.
  rewrite (nth_lookup_Some _ _ _ (item (array s l) (rev (rev idx)))).
  - by rewrite rev_involutive.
  - rewrite list_lookup_fmap, (lookup_indices _ _ (indices_rev _ _ Hidx)). done.
Qed.

Lemma opp_involutive (x : float) : (- - x)%float = x.
Proof.
  apply Prim2SF_inj. rewrite !opp_spec.
  destruct (Prim2SF x); simpl; by rewrite ?negb_involutive.
Qed.

Lemma conjugate_involutive z : conjugate (conjugate z) = z.
Proof. destruct z; simpl; by rewrite ?opp_involutive. Qed.

Lemma conj_involutive a : conj (conj a) = a.
Proof.
  destruct a as [s l]. unfold conj. simpl. f_equal.
  rewrite <- list_fmap_compose. transitivity (id <$> l); [|apply list_fmap_id].
  apply list_fmap_ext. intros _ z _. apply conjugate_involutive.
Qed.

Lemma T_conj a : T (conj a) = conj (T a).
Proof.
  unfold T, conj. simpl. f_equal. rewrite <- list_fmap_compose.
  apply list_fmap_ext. intros _ idx _. unfold item. simpl.
  apply (map_nth conjugate (data a) zero).
Qed.

(** The conjugate transpose, taken twice, gives the array back. *)
Lemma conj_T_involutive a : wf a -> T (conj (T (conj a))) = a.
Proof.
  intros Ha. rewrite <- T_conj, conj_involutive. by apply T_involutive.
Qed.
End arrays.


(** *** Indexing with Python integers *)

Section indexing.
Context {A : Type}.
Implicit Types (l : list A) (i : Z).

Lemma index_front l i :
  0 <= i < Z.of_nat (length l) -> Py.index l i = l !! Z.to_nat i.
Proof.
  intros Hi. unfold Py.index.
  destruct (Z.leb_spec 0 i), (Z.ltb_spec i (Z.of_nat (length l))); simpl; done || lia.
Qed.

Lemma index_back l i :
  - Z.of_nat (length l) <= i < 0 ->
  Py.index l i = l !! Z.to_nat (Z.of_nat (length l) + i).
Proof.
  intros Hi. unfold Py.index.
  destruct (Z.leb_spec 0 i), (Z.ltb_spec i (Z.of_nat (length l))),
    (Z.leb_spec (- Z.of_nat (length l)) i), (Z.ltb_spec i 0); simpl; done || lia.
Qed.

Lemma index_outside l i :
  ~ (- Z.of_nat (length l) <= i < Z.of_nat (length l)) -> Py.index l i = None.
Proof.
  intros Hi. unfold Py.index.
  destruct (Z.leb_spec 0 i), (Z.ltb_spec i (Z.of_nat (length l))),
    (Z.leb_spec (- Z.of_nat (length l)) i), (Z.ltb_spec i 0); simpl; done || lia.
Qed.

Lemma index_inside l i :
  - Z.of_nat (length l) <= i < Z.of_nat (length l) ->
  exists x, Py.index l i = Some x /\ x ∈ l.
Proof.
  intros Hi. destruct (Z.lt_ge_cases i 0).
  - rewrite index_back by lia.
    destruct (lookup_lt_is_Some_2 l (Z.to_nat (Z.of_nat (length l) + i))) as [x Hx]; [lia|].
    exists x. split; [done | by eapply list_elem_of_lookup_2].
  - rewrite index_front by lia.
    destruct (lookup_lt_is_Some_2 l (Z.to_nat i)) as [x Hx]; [lia|].
    exists x. split; [done | by eapply list_elem_of_lookup_2].
Qed.
End indexing.

Lemma index_0 {A} (x : A) l : Py.index (x :: l) 0 = Some x.
Proof. rewrite index_front; [done | simpl; lia]. Qed.

Lemma index_1 {A} (x y : A) l : Py.index (x :: y :: l) 1 = Some y.
Proof. rewrite index_front; [done | simpl; lia]. Qed.

Lemma str_item_0 c s : str_item (String c s) 0 = Ok (str1 c).
Proof. unfold str_item. cbn [list_ascii_of_string]. by rewrite index_0. Qed.

Lemma str_item_1 c d s : str_item (String c (String d s)) 1 = Ok (str1 d).
Proof. unfold str_item. cbn [list_ascii_of_string]. by rewrite index_1. Qed.

(** *** PyPOTypes.py: the constructor *)

Lemma init_loop_step type arg rest i n n' t a ml attrs :
  n' = (if (i mod 3 =? 0) && negb (i =? 0) then n + 1 else n) ->
  str_item type n' = Ok t ->
  list_item ax (i - 3 * n') = Ok a ->
  list_item (ml ++ [t +:+ a]) i = Ok (t +:+ a) ->
  init_loop type (arg :: rest) i n ml attrs
  = init_loop type rest (i + 1) n' (ml ++ [t +:+ a]) (<[t +:+ a := arg]> attrs).
Proof. intros -> Ht Ha Hl. cbn [init_loop]. rewrite Ht. simpl. rewrite Ha. simpl. by rewrite Hl. Qed.

Lemma init_six (c0 c1 : ascii) (t : string) (a0 a1 a2 a3 a4 a5 : np.ndarray) (r c : nat) (more : list nat) :
  np.shape a0 = r :: c :: more ->
  init [a0; a1; a2; a3; a4; a5] (Some (String c0 (String c1 t))) =
  Ok {| type := String c0 (String c1 t);
        memlist := [str1 c0 +:+ "x"; str1 c0 +:+ "y"; str1 c0 +:+ "z";
                    str1 c1 +:+ "x"; str1 c1 +:+ "y"; str1 c1 +:+ "z"];
        shape := r :: c :: more;
        size := (r * c)%nat;
        attrs := <[str1 c1 +:+ "z" := a5]> (<[str1 c1 +:+ "y" := a4]> (<[str1 c1 +:+ "x" := a3]>
                 (<[str1 c0 +:+ "z" := a2]> (<[str1 c0 +:+ "y" := a1]> (<[str1 c0 +:+ "x" := a0]> ∅))))) |}.
Proof.
  intros Hs. unfold init. 
  change (Py.index [a0; a1; a2; a3; a4; a5] 0) with (Some a0). cbn [mbind result_bind bind].
  rewrite Hs. unfold np.shape_item. rewrite index_0, index_1.
  cbn [mbind result_bind bind].
  do 3 (erewrite init_loop_step; [| reflexivity | apply str_item_0 | reflexivity | reflexivity ]).
  do 3 (erewrite init_loop_step; [| reflexivity | apply str_item_1 | reflexivity | reflexivity ]).
  reflexivity.
Qed.

(** C10: the constructor records shape and size from its first argument
    alone, [size = shape[0] * shape[1]].  With six arrays and a type tag
    of two letters it succeeds as soon as the first array has (at least)
    two dimensions, whatever the shapes of the other five; it fails with
    an IndexError whenever the first array has fewer than two
    dimensions. *)
Theorem init_takes_shape_from_first_argument
    (a0 : np.ndarray) (rest : list np.ndarray) (restype : option string) :
  (forall r c more,
      np.shape a0 = r :: c :: more -> length rest = 5%nat -> tag_ok restype ->
      exists o, init (a0 :: rest) restype = Ok o
                /\ shape o = np.shape a0 /\ size o = (r * c)%nat /\ length (memlist o) = 6%nat)
  /\ ((length (np.shape a0) < 2)%nat ->
      init (a0 :: rest) restype = Raise (IndexError "tuple index out of range")).
Proof.
  split.
  - intros r c more Hs Hrest Htag.
    destruct rest as [|a1 [|a2 [|a3 [|a4 [|a5 [|]]]]]]; try discriminate.
    assert (exists c0 c1 t, init [a0; a1; a2; a3; a4; a5] restype
                            = init [a0; a1; a2; a3; a4; a5] (Some (String c0 (String c1 t))))
      as (c0 & c1 & t & ->).
    { destruct restype as [[|c0 [|c1 t]]|]; simpl in Htag; try lia.
      - by exists c0, c1, t.
      - by exists "E"%char, "H"%char, EmptyString. }
    rewrite (init_six _ _ _ _ _ _ _ _ _ _ _ _ Hs). eexists. by repeat split.
  - intros Hdim. unfold init. rewrite index_0. cbn [mbind result_bind bind].
    destruct (np.shape a0) as [|r [|c more]]; simpl in Hdim; try lia; reflexivity.
Qed.

Lemma init_takes_shape_from_first_argument_witness :
  (exists o, init [sample_matrix; row_vector; cube; row_vector; cube; row_vector] None = Ok o
             /\ shape o = [2; 3]%nat /\ size o = 6%nat /\ length (memlist o) = 6%nat)
  /\ init [row_vector; sample_matrix; sample_matrix; sample_matrix; sample_matrix; sample_matrix] None
     = Raise (IndexError "tuple index out of range").
Proof.
  split.
  - apply (proj1 (init_takes_shape_from_first_argument sample_matrix
                    [row_vector; cube; row_vector; cube; row_vector] None) 2%nat 3%nat []);
      [reflexivity | reflexivity | exact I].
  - apply (proj2 (init_takes_shape_from_first_argument row_vector
                    [sample_matrix; sample_matrix; sample_matrix; sample_matrix; sample_matrix] None)).
    simpl. lia.
Defined.

(** *** PyPOTypes.py: positional access *)

Lemma sample_fields_built :
  PyPOTypes.fields sample_matrix sample_matrix sample_matrix
                   sample_matrix sample_matrix complex_matrix = Ok sample_fields.
Proof. apply (init_six "E" "H" EmptyString). reflexivity. Qed.

Lemma sample_fields_six : six_members sample_fields.
Proof.
  split; [reflexivity|]. intros l Hl. simpl in Hl.
  repeat (apply elem_of_cons in Hl as [->|Hl]); try (vm_compute; by eexists).
  by apply elem_of_nil in Hl.
Qed.

Lemma sample_fields_wf : wf_members sample_fields.
Proof.
  intros l a. simpl. rewrite !lookup_insert_Some, lookup_empty.
  intros Hl. decompose [and or] Hl; subst; done.
Qed.

(** C4 (amended): on a container with its six components, positional
    access (get or set) succeeds for every index from -6 to 5, a negative
    index counting from the end, and fails for every other index with an
    IndexError whose message names the offending index. *)
Theorem positional_access_range (o : obj) (idx : Z) :
  six_members o ->
  (- 6 <= idx < 6 ->
     (exists a, getitem o idx = Ok a)
     /\ forall item, exists o', setitem o idx item = Ok o' /\ getitem o' idx = Ok item)
  /\ (- 6 <= idx < 0 -> getitem o idx = getitem o (idx + 6))
  /\ (~ - 6 <= idx < 6 ->
     getitem o idx = Raise (IndexError ("Index out of range: " +:+ str_int idx))
     /\ forall item,
          setitem o idx item = Raise (IndexError ("Index out of range: " +:+ str_int idx))).
Proof.
  intros [Hlen Hattrs]. split; [|split]; intros Hidx.
  - destruct (index_inside (memlist o) idx) as (l & Hl & Hin); [lia|].
    unfold getitem, setitem. rewrite Hl. destruct (Hattrs l Hin) as [a Ha]. split.
    + exists a. by rewrite Ha.
    + intros item. eexists. split; [done|]. simpl. by rewrite Hl, lookup_insert_eq.
  - unfold getitem. rewrite index_back, index_front by lia.
    rewrite Hlen. replace (Z.to_nat (Z.of_nat 6 + idx)) with (Z.to_nat (idx + 6)) by lia.
    destruct (lookup_lt_is_Some_2 (memlist o) (Z.to_nat (idx + 6))) as [l Hl]; [lia|].
    rewrite Hl. by destruct (Hattrs l (list_elem_of_lookup_2 _ _ _ Hl)) as [a ->].
  - unfold getitem, setitem. rewrite index_outside by lia. done.
Qed.

Lemma positional_access_range_witness :
  (- 6 <= 6 < 6 ->
     (exists a, getitem sample_fields 6 = Ok a)
     /\ forall item, exists o', setitem sample_fields 6 item = Ok o' /\ getitem o' 6 = Ok item)
  /\ (- 6 <= 6 < 0 -> getitem sample_fields 6 = getitem sample_fields (6 + 6))
  /\ (~ - 6 <= 6 < 6 ->
     getitem sample_fields 6 = Raise (IndexError ("Index out of range: " +:+ str_int 6))
     /\ forall item,
          setitem sample_fields 6 item = Raise (IndexError ("Index out of range: " +:+ str_int 6))).
Proof. apply (positional_access_range sample_fields 6). exact sample_fields_six. Defined.

(** Index -1, outside 0-5, reads and writes the sixth component. *)
Lemma negative_index_is_accepted :
  getitem sample_fields (-1) = Ok complex_matrix
  /\ exists o', setitem sample_fields (-1) row_vector = Ok o'
                /\ getitem o' 5 = Ok row_vector.
Proof. split; [reflexivity|]. eexists. split; reflexivity. Qed.

Example out_of_range_messages :
  getitem sample_fields 6 = Raise (IndexError "Index out of range: 6")
  /\ getitem sample_fields (-7) = Raise (IndexError "Index out of range: -7").
Proof. split; reflexivity. Qed.

(** *** PyPOTypes.py: transpose and Hermitian transpose *)

Section members.
Context (f : np.ndarray -> np.ndarray).
Implicit Types (o : obj) (h : store) (m : gmap string np.ndarray) (ls : list string).

Lemma set_attrs_same o : set_attrs o (attrs o) = o.
Proof. by destruct o. Qed.

Lemma set_attrs_twice o m m' : set_attrs (set_attrs o m) m' = set_attrs o m'.
Proof. reflexivity. Qed.

Lemma attrs_set_attrs o m : attrs (set_attrs o m) = m.
Proof. reflexivity. Qed.

Lemma lookup_alter_all m ls k :
  alter_all f m ls !! k = Nat.iter (occurrences k ls) f <$> m !! k.
Proof.
  revert m; induction ls as [|l ls IH]; intros m; cbn [alter_all foldl occurrences].
  - by destruct (m !! k).
  - fold (alter_all f (alter f l m) ls). rewrite IH.
    destruct (decide (l = k)) as [->|Hne]; simpl.
    + rewrite lookup_alter_eq. destruct (m !! k); simpl; [|done].
      by rewrite <- Nat.iter_succ_r.
    + by rewrite lookup_alter_ne.
Qed.

Lemma update_item_ok self i h o l a :
  h !! self = Some o -> Py.index (memlist o) i = Some l -> attrs o !! l = Some a ->
  update_item f self i h = (Ok (), <[self := set_attrs o (alter f l (attrs o))]> h).
Proof.
  intros Ho Hl Ha. unfold update_item, getitem, setitem. rewrite Ho, Hl, Ha.
  do 3 f_equal. unfold set_attrs. f_equal.
  apply map_eq. intros k. destruct (decide (l = k)) as [->|Hne].
  - by rewrite lookup_insert_eq, lookup_alter_eq, Ha.
  - by rewrite lookup_insert_ne, lookup_alter_ne.
Qed.

Lemma for_each_update self range ls h o :
  h !! self = Some o ->
  Forall2 (fun i l => Py.index (memlist o) i = Some l) range ls ->
  (forall l, l ∈ ls -> is_Some (attrs o !! l)) ->
  for_each (update_item f self) range h
  = (Ok (), <[self := set_attrs o (alter_all f (attrs o) ls)]> h).
Proof.
  intros Ho Hls. revert ls h o Ho Hls.
  induction range as [|i range IH]; intros ls h o Ho Hls Hattrs.
  - inversion Hls; subst. cbn [for_each alter_all foldl].
    by rewrite set_attrs_same, insert_id.
  - inversion Hls as [|? l ? ls' Hl Hls']; subst.
    destruct (Hattrs l) as [a Ha]; [by left|].
    cbn [for_each]. rewrite (update_item_ok _ _ _ _ _ _ Ho Hl Ha).
    rewrite (IH ls' _ (set_attrs o (alter f l (attrs o)))).
    + by rewrite insert_insert_eq.
    + by rewrite lookup_insert_eq.
    + done.
    + intros l' Hl'. simpl. destruct (decide (l = l')) as [->|Hne].
      * rewrite lookup_alter_eq, Ha. by eexists.
      * rewrite lookup_alter_ne by done. apply Hattrs. by right.
Qed.

Lemma range6_labels o :
  length (memlist o) = 6%nat ->
  Forall2 (fun i l => Py.index (memlist o) i = Some l) range6 (memlist o).
Proof.
  intros Hlen. destruct (memlist o) as [|l0 [|l1 [|l2 [|l3 [|l4 [|l5 [|]]]]]]]; try discriminate.
  repeat constructor.
Qed.

Context (P : np.ndarray -> Prop).
Hypothesis f_twice : forall a, P a -> P (f a) /\ f (f a) = a.

Lemma iter_keeps a n : P a -> P (Nat.iter n f a).
Proof. intros Ha. induction n as [|n IH]; simpl; [done | by apply f_twice]. Qed.

Lemma iter_twice a n : P a -> Nat.iter n f (Nat.iter n f a) = a.
Proof.
  intros Ha. induction n as [|n IH]; [done|].
  rewrite Nat.iter_succ_r. simpl.
  by rewrite (proj2 (f_twice _ (iter_keeps a n Ha))).
Qed.

Lemma alter_all_twice m ls :
  (forall l a, m !! l = Some a -> P a) -> alter_all f (alter_all f m ls) ls = m.
Proof.
  intros Hm. apply map_eq. intros k. rewrite !lookup_alter_all.
  destruct (m !! k) as [a|] eqn:Hk; simpl; [|done].
  by rewrite (iter_twice _ _ (Hm _ _ Hk)).
Qed.

(** The loop of [T] and [H] on a six-member container, and the same loop
    run once more. *)
Lemma loop_twice self h o :
  h !! self = Some o -> six_members o -> (forall l a, attrs o !! l = Some a -> P a) ->
  let h1 := <[self := set_attrs o (alter_all f (attrs o) (memlist o))]> h in
  for_each (update_item f self) range6 h = (Ok (), h1)
  /\ for_each (update_item f self) range6 h1 = (Ok (), h).
Proof.
  intros Ho [Hlen Hattrs] HP h1. split.
  - apply for_each_update; [done | by apply range6_labels | done].
  - unfold h1.
    rewrite (for_each_update self range6 (memlist o) _
               (set_attrs o (alter_all f (attrs o) (memlist o)))).
    + rewrite set_attrs_twice, attrs_set_attrs, insert_insert_eq.
      rewrite (alter_all_twice _ _ HP), set_attrs_same. by rewrite insert_id.
    + by rewrite lookup_insert_eq.
    + exact (range6_labels o Hlen).
    + intros l Hl. rewrite attrs_set_attrs, lookup_alter_all.
      destruct (Hattrs l Hl) as [a ->]. by eexists.
Qed.

Lemma occurrences_NoDup ls k : NoDup ls -> k ∈ ls -> occurrences k ls = 1%nat.
Proof.
  induction 1 as [|l ls Hl Hnd IH]; [by intros ?%elem_of_nil|].
  assert (forall ls', k ∉ ls' -> occurrences k ls' = 0%nat) as Hzero.
  { clear. induction ls' as [|l' ls' IH]; [done|]. intros Hk. simpl.
    rewrite decide_False, IH; [done | | ]; intros ?; apply Hk; [by right | subst; by left]. }
  intros [->|Hk]%elem_of_cons; simpl.
  - rewrite decide_True by done. by rewrite Hzero.
  - rewrite decide_False; [by apply IH | by intros ->].
Qed.

Lemma getitem_alter_all o i a :
  NoDup (memlist o) -> getitem o i = Ok a ->
  getitem (set_attrs o (alter_all f (attrs o) (memlist o))) i = Ok (f a).
Proof.
  intros Hnd. unfold getitem. simpl.
  destruct (Py.index (memlist o) i) as [l|] eqn:Hl; [|done].
  assert (l ∈ memlist o) as Hin.
  { unfold Py.index in Hl. repeat case_match; try done; by eapply list_elem_of_lookup_2. }
  rewrite lookup_alter_all, (occurrences_NoDup _ _ Hnd Hin).
  destruct (attrs o !! l); [|done]. by intros [= ->].
Qed.
End members.
(** C7: on a container with its six components, [T] and [H] change the
    stored object in place and return the reference they were called
    on; each component is replaced by its transpose (by its conjugate
    transpose for [H]); and applying [T] twice, or [H] twice, restores
    every component, so the store is the one the calls started from. *)
Theorem transposes_are_involutive (h : gmap positive obj) (self : positive) (o : obj) :
  h !! self = Some o -> six_members o -> wf_members o ->
  (exists o1,
      PyPOTypes.resContainer.T self h = (Ok self, <[self := o1]> h)
      /\ PyPOTypes.resContainer.T self (<[self := o1]> h) = (Ok self, h)
      /\ (NoDup (memlist o) ->
          forall i a, getitem o i = Ok a -> getitem o1 i = Ok (np.T a)))
  /\ (exists o1,
      PyPOTypes.resContainer.H self h = (Ok self, <[self := o1]> h)
      /\ PyPOTypes.resContainer.H self (<[self := o1]> h) = (Ok self, h)
      /\ (NoDup (memlist o) ->
          forall i a, getitem o i = Ok a -> getitem o1 i = Ok (np.T (np.conj a)))).
Proof.
  intros Ho Hsix Hwf. split.
  - destruct (loop_twice np.T np.wf (fun a Ha => conj (wf_T a) (T_involutive a Ha))
                self h o Ho Hsix Hwf) as [H1 H2].
    eexists. unfold T. rewrite H1, H2. repeat split.
    intros Hnd i a. by apply getitem_alter_all.
  - destruct (loop_twice (fun a => np.T (np.conj a)) np.wf
                (fun a Ha => conj (wf_T (np.conj a)) (conj_T_involutive a Ha))
                self h o Ho Hsix Hwf) as [H1 H2].
    eexists. unfold H. rewrite H1, H2. repeat split.
    intros Hnd i a. by apply (getitem_alter_all (fun a => np.T (np.conj a))).
Qed.

Lemma transposes_are_involutive_witness :
  (exists o1,
      T 1%positive {[1%positive := sample_fields]}
        = (Ok 1%positive, <[1%positive := o1]> {[1%positive := sample_fields]})
      /\ T 1%positive (<[1%positive := o1]> {[1%positive := sample_fields]})
         = (Ok 1%positive, {[1%positive := sample_fields]})
      /\ (NoDup (memlist sample_fields) ->
          forall i a, getitem sample_fields i = Ok a -> getitem o1 i = Ok (np.T a)))
  /\ (exists o1,
      H 1%positive {[1%positive := sample_fields]}
        = (Ok 1%positive, <[1%positive := o1]> {[1%positive := sample_fields]})
      /\ H 1%positive (<[1%positive := o1]> {[1%positive := sample_fields]})
         = (Ok 1%positive, {[1%positive := sample_fields]})
      /\ (NoDup (memlist sample_fields) ->
          forall i a, getitem sample_fields i = Ok a -> getitem o1 i = Ok (np.T (np.conj a)))).
Proof.
  apply (transposes_are_involutive {[1%positive := sample_fields]} 1%positive sample_fields).
  - apply lookup_singleton_eq.
  - exact sample_fields_six.
  - exact sample_fields_wf.
Defined.

Example hermitian_of_sample :
  np.T (np.conj complex_matrix) =
  {| np.shape := [2; 2]%nat;
     np.data := [np.Complex 1 (-2); np.Complex 5 (-6); np.Complex 3 (-4); np.Complex 7 (-8)] |}.
Proof. reflexivity. Qed.

(** *** BindRefl.py: grid generation *)
Section bindings.
Import BindRefl.

Lemma bind_ok {A B} (m : M A) (k : A -> M B) a :
  outcome m = Ok a -> m ≫= k = Run (log m ++ log (k a)) (outcome (k a)).
Proof. intros Hm. unfold mbind, M_bind. by rewrite Hm. Qed.

Lemma bind_raise {A B} (m : M A) (k : A -> M B) e :
  outcome m = Raise e -> m ≫= k = Run (log m) (Raise e).
Proof. intros Hm. unfold mbind, M_bind. by rewrite Hm. Qed.

Lemma bind_returns {A B} (m : M A) (k : A -> M B) b :
  outcome (m ≫= k) = Ok b -> exists a, outcome m = Ok a /\ outcome (k a) = Ok b.
Proof.
  unfold mbind, M_bind. destruct (outcome m) as [a|e] eqn:Hm; simpl; [|done].
  intros Hb. by exists a.
Qed.

(** Loading the library calls no native entry point. *)
Lemma loadRefllib_log w e : e ∈ log (loadRefllib w) -> exists file, e = Loaded file.
Proof.
  unfold loadRefllib, try_except, load.
  destruct (CDLL w "pyporefl.dll"), (CDLL w "libpyporefl.so"), (CDLL w "libpyporefl.dylib");
    simpl; intros He;
    repeat (apply elem_of_cons in He as [->|He]; [by eexists|]); by apply elem_of_nil in He.
Qed.


(** C3: when the engine library has loaded and the dictionary has no
    [po_points] key, [generatePOGrid] raises the ValueError whose message
    contains the key name and the value under [name]; no native entry
    point has been called; and nothing else of the dictionary matters:
    any other dictionary without [po_points] and with the same name runs
    identically. *)
Theorem generatePOGrid_requires_po_points
    (w : world) (d : gmap string pyval) (transform : bool) (lib : engine) (name : pyval) :
  outcome (loadRefllib w) = Ok lib ->
  d !! "po_points" = None ->
  d !! "name" = Some name ->
  outcome (generatePOGrid w d transform) = Raise (ValueError (missing_po_points name))
  /\ (forall entry, NativeCall entry ∉ log (generatePOGrid w d transform))
  /\ Substring "po_points" (missing_po_points name)
  /\ Substring (str name) (missing_po_points name)
  /\ (forall d' : gmap string pyval,
        d' !! "po_points" = None -> d' !! "name" = Some name ->
        generatePOGrid w d' transform = generatePOGrid w d transform).
Proof.
  intros Hload Hpo Hname.
  assert (forall d' : gmap string pyval,
            d' !! "po_points" = None -> d' !! "name" = Some name ->
            generatePOGrid w d' transform
            = Run (log (loadRefllib w)) (Raise (ValueError (missing_po_points name)))) as Hrun.
  { intros d' Hpo' Hname'. unfold generatePOGrid.
    rewrite (bind_ok _ _ _ Hload), Hpo'. unfold dict_item. rewrite Hname'.
    simpl. by rewrite !app_nil_r. }
  rewrite (Hrun d Hpo Hname). simpl. repeat split.
  - intros entry [file Hfile]%loadRefllib_log. discriminate.
  - exists (str1 dquote), (str1 dquote +:+ " not defined on " +:+ str name
                           +:+ ". Cannot generate PO grid."). reflexivity.
  - exists (str1 dquote +:+ "po_points" +:+ str1 dquote +:+ " not defined on "),
      ". Cannot generate PO grid.". reflexivity.
  - intros d' Hpo' Hname'. by apply Hrun.
Qed.

Lemma as_array_ok buf s :
  length buf = np.size_of s ->
  as_array buf s = Ok {| np.shape := s; np.data := np.Real <$> buf |}.
Proof. intros Hlen. unfold as_array. by rewrite (proj2 (Nat.eqb_eq _ _) Hlen). Qed.

Lemma length_write f buf : length (write f buf) = length buf.
Proof. apply length_imap. Qed.

(** C6: for a dictionary with [gridsize = (a, b)], on a machine where
    the engine library loads, [generateGrid] returns a [reflGrids] whose
    seven arrays x, y, z, nx, ny, nz and area have shape [(a, b)] and
    exactly [a * b] elements each. *)
Theorem generateGrid_point_count
    (w : world) (d : gmap string pyval) (transform spheric : bool) (lib : engine) (a b : Z) :
  outcome (loadRefllib w) = Ok lib ->
  d !! "gridsize" = Some (VTuple [a; b]) ->
  0 <= a -> 0 <= b ->
  exists g,
    outcome (generateGrid w d transform spheric) = Ok g
    /\ Forall (fun arr => np.shape arr = [Z.to_nat a; Z.to_nat b]
                          /\ length (np.data arr) = Z.to_nat (a * b))
         [PyPOTypes.x g; PyPOTypes.y g; PyPOTypes.z g;
          PyPOTypes.nx g; PyPOTypes.ny g; PyPOTypes.nz g; PyPOTypes.area g].
Proof.
  intros Hload Hgrid Ha Hb. unfold generateGrid.
  rewrite (bind_ok _ _ _ Hload). unfold dict_item. rewrite Hgrid.
  cbn [lift mbind M_bind outcome log subscript mul]. rewrite index_0, index_1.
  cbn [lift mbind M_bind outcome log subscript mul allocate_reflcontainer].
  rewrite (proj2 (Z.ltb_ge _ _)) by lia.
  cbn [lift emit mbind M_bind outcome log creflToObj as_shape forallb].
  rewrite (proj2 (Z.leb_le _ _) Ha), (proj2 (Z.leb_le _ _) Hb).
  cbn [andb mbind result_bind bind fill c_x c_y c_z c_nx c_ny c_nz c_area fmap list_fmap].
  assert (forall f, length (write f (replicate (Z.to_nat (a * b)) 0%float))
                    = np.size_of [Z.to_nat a; Z.to_nat b]) as Hlen.
  { intros f. rewrite length_write, length_replicate. simpl. rewrite Z2Nat.inj_mul; lia. }
  rewrite !(as_array_ok _ _ (Hlen _)). cbn [mbind result_bind bind].
  eexists. split; [reflexivity|].
  repeat constructor; simpl; rewrite length_fmap, length_write, length_replicate; done.
Qed.
End bindings.

Section bindings_on_samples.
Import BindRefl.

(** C1 (the code at a dictionary that carries gridsize, name, po_points
    and gmode): [generatePOGrid] does not return a PO-grid object; the
    attribute access [PTypes.po_grids] raises AttributeError, because
    the module PyPOTypes binds no such name. *)
Theorem generatePOGrid_raises_AttributeError :
  generatePOGrid sample_world sample_po_reflector true
  = Run [Loaded "libpyporefl.so"]
        (Raise (AttributeError "module 'PyPO.PyPOTypes' has no attribute 'po_grids'")).
Proof. vm_compute. reflexivity. Qed.

(** [generatePOGrid] never returns an object, whatever it is given. *)
Lemma generatePOGrid_never_returns w d transform g :
  outcome (generatePOGrid w d transform) <> Ok g.
Proof.
  unfold generatePOGrid. intros Hg.
  repeat (apply bind_returns in Hg as (? & ? & Hg)).
  match goal with
  | Hno : outcome (lift (PyPOTypes.module_getattr _)) = Ok _ |- _ => discriminate Hno
  end.
Qed.

Lemma generatePOGrid_requires_po_points_witness :
  outcome (generatePOGrid sample_world sample_reflector true)
    = Raise (ValueError (missing_po_points (VStr "mirror")))
  /\ (forall entry, NativeCall entry ∉ log (generatePOGrid sample_world sample_reflector true))
  /\ Substring "po_points" (missing_po_points (VStr "mirror"))
  /\ Substring (str (VStr "mirror")) (missing_po_points (VStr "mirror"))
  /\ (forall d' : gmap string pyval,
        d' !! "po_points" = None -> d' !! "name" = Some (VStr "mirror") ->
        generatePOGrid sample_world d' true = generatePOGrid sample_world sample_reflector true).
Proof.
  apply (generatePOGrid_requires_po_points sample_world sample_reflector true sample_engine);
    reflexivity.
Defined.

Lemma generateGrid_point_count_witness :
  exists g,
    outcome (generateGrid sample_world sample_reflector true true) = Ok g
    /\ Forall (fun arr => np.shape arr = [Z.to_nat 4; Z.to_nat 5]
                          /\ length (np.data arr) = Z.to_nat (4 * 5))
         [PyPOTypes.x g; PyPOTypes.y g; PyPOTypes.z g;
          PyPOTypes.nx g; PyPOTypes.ny g; PyPOTypes.nz g; PyPOTypes.area g].
Proof.
  apply (generateGrid_point_count sample_world sample_reflector true true sample_engine 4 5);
    [reflexivity | reflexivity | lia | lia].
Defined.

Example generateGrid_twenty_points :
  match outcome (generateGrid sample_world sample_reflector true true) with
  | Ok g => length (np.data (PyPOTypes.area g))
  | Raise _ => 0%nat
  end = 20%nat.
Proof. vm_compute. reflexivity. Qed.
(** Where no library loads, the load failure comes first, with or
    without [po_points]. *)
Example generatePOGrid_without_library :
  generatePOGrid bare_world sample_reflector true
  = Run [] (Raise (OSError "cannot open shared object file")).
Proof. reflexivity. Qed.
End bindings_on_samples.

(** *** Enums.py: arithmetic with enumeration members *)

Section enums.
Import Enums.

(** C8: for every member of [Objects] and every plain number, both
    [__rmul__] and [__rtruediv__] answer NotImplemented, and the
    expressions [number * member], [number / member], [member * number]
    and [member / number] all end in the unsupported-operand TypeError,
    never in a number. *)
Theorem objects_refuse_arithmetic (o : Objects) (n : pynum) (op : operator) :
  CustomEnumString_rmul o n = NotImplemented
  /\ CustomEnumString_rtruediv o n = NotImplemented
  /\ number_op_member op n (OfObjects o) = Raise (unsupported op)
  /\ member_op_number op (OfObjects o) n = Raise (unsupported op).
Proof. destruct op; repeat split. Qed.

(** C2 (the code at every unit and number): [number / member] raises
    the unsupported-operand TypeError for every member of [Units],
    because [CustomEnumTuple] defines [rdiv] and no [__rtruediv__]. *)
Theorem units_true_division_unsupported (u : Units) (n : pynum) :
  number_op_member TrueDiv n (OfUnits u) = Raise (unsupported TrueDiv).
Proof. reflexivity. Qed.

Example five_over_cm :
  number_op_member TrueDiv (PInt 5) (OfUnits CM)
  = Raise (TypeError "unsupported operand type(s) for /").
Proof. reflexivity. Qed.

(** Called by name, [rdiv] does divide by the factor, and [__rmul__]
    multiplies by it. *)
Example rdiv_then_mul :
  (Units_value CM).1 = 10%float
  /\ CustomEnumTuple_rdiv CM (PInt 5) = Returned (Ok (PFloat 0.5))
  /\ number_op_member Mul (PFloat 0.5) (OfUnits CM) = Ok (PFloat 5).
Proof. repeat split. Qed.

(** C9 (amended): the derived factors, in double precision, are
    IN = 25.4, MIL = THOU = 0.0254, UIN = 2.5399999999999997e-05,
    FT = 304.79999999999995, RAD = 57.29577951308232,
    MRAD = 0.057295779513082325 and URAD = 5.729577951308232e-05. *)
Theorem derived_unit_factors :
  (Units_value IN).1 = 25.4%float
  /\ (Units_value MIL).1 = 0.0254%float
  /\ (Units_value THOU).1 = 0.0254%float
  /\ THOU_value = MIL_value
  /\ (Units_value UIN).1 = 2.5399999999999997e-05%float
  /\ (Units_value FT).1 = 304.79999999999995%float
  /\ (Units_value RAD).1 = 57.29577951308232%float
  /\ (Units_value MRAD).1 = 0.057295779513082325%float
  /\ (Units_value URAD).1 = 5.729577951308232e-05%float.
Proof. repeat split. Qed.

(** UIN, FT and MRAD are one unit in the last place away from the
    doubles written 2.54e-5, 304.8 and 0.05729577951308232: the
    comparison [==] of doubles answers false, and the values differ. *)
Lemma listed_unit_factors_refuted :
  ((Units_value UIN).1 =? 2.54e-5)%float = false
  /\ ((Units_value FT).1 =? 304.8)%float = false
  /\ ((Units_value MRAD).1 =? 0.05729577951308232)%float = false
  /\ (Units_value UIN).1 <> 2.54e-5%float
  /\ (Units_value FT).1 <> 304.8%float
  /\ (Units_value MRAD).1 <> 0.05729577951308232%float.
Proof.
  repeat split; try reflexivity;
    intros Heq; apply (f_equal Prim2SF) in Heq; vm_compute in Heq; discriminate.
Qed.
End enums.

Example version_quoted :
  Setup.version ["import os" ; "__version__ = '2.4.1'" ; "x = 1"] = Ok "2.4.1"
  /\ Setup.version ["import os" ; "x = 1"] = Ok "0.0.0".
Proof. split; reflexivity. Qed.

Example transpose_sample :
  np.T sample_matrix =
  {| np.shape := [3; 2]%nat;
     np.data := [np.Real 1; np.Complex 4 1; np.Real 2; np.Real 5; np.Real 3; np.Real 6] |}.
Proof. reflexivity. Qed.

(* ===================================================================== *)
(** ** Further properties *)
(* ===================================================================== *)

(** *** PyPOTypes.py: containers and their components *)

Lemma index_mod {A} (l : list A) (i : Z) :
  - Z.of_nat (length l) <= i < Z.of_nat (length l) ->
  Py.index l i = l !! Z.to_nat (i mod Z.of_nat (length l)).
Proof.
  intros Hi. destruct (Z.lt_ge_cases i 0).
  - rewrite index_back by lia. f_equal. f_equal.
    rewrite <- (Z.mod_small (Z.of_nat (length l) + i) (Z.of_nat (length l))) by lia.
    rewrite <- (Z.mul_1_l (Z.of_nat (length l))) at 1.
    rewrite Z.add_comm. apply Z.mod_add. lia.
  - rewrite index_front by lia. by rewrite Z.mod_small by lia.
Qed.

(** X1: [fields] and [currents] store their six arguments under the
    labels Ex..Hz and Jx..Mz, in that order, and position [i] reads the
    [i]-th argument back, whatever the shapes of the last five. *)
Theorem wrappers_store_arguments_in_order
    (a0 a1 a2 a3 a4 a5 : np.ndarray) (r c : nat) (more : list nat) :
  np.shape a0 = r :: c :: more ->
  (exists o, PyPOTypes.fields a0 a1 a2 a3 a4 a5 = Ok o
             /\ type o = "EH"
             /\ memlist o = ["Ex"; "Ey"; "Ez"; "Hx"; "Hy"; "Hz"]
             /\ Forall2 (fun i a => getitem o i = Ok a) range6 (six a0 a1 a2 a3 a4 a5))
  /\ (exists o, PyPOTypes.currents a0 a1 a2 a3 a4 a5 = Ok o
             /\ type o = "JM"
             /\ memlist o = ["Jx"; "Jy"; "Jz"; "Mx"; "My"; "Mz"]
             /\ Forall2 (fun i a => getitem o i = Ok a) range6 (six a0 a1 a2 a3 a4 a5)).
Proof.
  intros Hs. split; eexists.
  - split; [exact (init_six "E" "H" EmptyString _ _ _ _ _ _ _ _ _ Hs)|].
    repeat split. repeat constructor.
  - split; [exact (init_six "J" "M" EmptyString _ _ _ _ _ _ _ _ _ Hs)|].
    repeat split. repeat constructor.
Qed.

(** X2: with a type tag whose two letters are the same, the last
    three labels repeat the first three, so positions 0, 1, 2 read the
    fourth, fifth and sixth argument: the first three are overwritten. *)
Theorem repeated_letter_overwrites_first_triplet
    (c : ascii) (t : string) (a0 a1 a2 a3 a4 a5 : np.ndarray) (r k : nat) (more : list nat) :
  np.shape a0 = r :: k :: more ->
  exists o, init [a0; a1; a2; a3; a4; a5] (Some (String c (String c t))) = Ok o
            /\ Forall2 (fun i a => getitem o i = Ok a) range6 [a3; a4; a5; a3; a4; a5].
Proof.
  intros Hs. eexists. split; [exact (init_six c c t _ _ _ _ _ _ _ _ _ Hs)|].
  assert (forall s : string, str1 c +:+ s = String c s) as Hlabel by done.
  unfold range6, getitem. cbn [memlist attrs].
  repeat constructor;
    (rewrite index_front by (simpl; lia)); simpl;
    repeat first [ rewrite lookup_insert_eq | rewrite lookup_insert_ne by (intros [=]) ];
    reflexivity.
Qed.

(** X3: on a six-component container with distinct labels, writing
    position [i] changes that component only: every other position reads
    what it read before, and the labels and the recorded shape and size
    stay, whatever the shape of the new item. *)
Theorem setitem_changes_one_component (o o' : obj) (i j : Z) (item : np.ndarray) :
  six_members o -> NoDup (memlist o) ->
  - 6 <= i < 6 -> - 6 <= j < 6 -> i mod 6 <> j mod 6 ->
  setitem o i item = Ok o' ->
  getitem o' i = Ok item
  /\ getitem o' j = getitem o j
  /\ memlist o' = memlist o /\ shape o' = shape o /\ size o' = size o /\ type o' = type o.
Proof.
  intros [Hlen Hattrs] Hnd Hi Hj Hij. unfold setitem, getitem.
  pose proof (Z.mod_pos_bound i 6 eq_refl). pose proof (Z.mod_pos_bound j 6 eq_refl).
  rewrite !index_mod by (rewrite Hlen; lia). rewrite Hlen. change (Z.of_nat 6) with 6.
  destruct (lookup_lt_is_Some_2 (memlist o) (Z.to_nat (i mod 6))) as [li Hli]; [lia|].
  destruct (lookup_lt_is_Some_2 (memlist o) (Z.to_nat (j mod 6))) as [lj Hlj]; [lia|].
  rewrite Hli. intros [= <-]. cbn [memlist attrs shape size type].
  rewrite !index_mod by (rewrite Hlen; lia). rewrite Hlen. change (Z.of_nat 6) with 6.
  rewrite Hli, Hlj, lookup_insert_eq, lookup_insert_ne; [done|].
  intros ->. pose proof (NoDup_lookup _ _ _ _ Hnd Hli Hlj). lia.
Qed.



Lemma for_each_app body (r1 r2 : list Z) (h : gmap positive obj) :
  for_each body (r1 ++ r2) h
  = match for_each body r1 h with
    | (Ok _, h') => for_each body r2 h'
    | (Raise e, h') => (Raise e, h')
    end.
Proof.
  revert h; induction r1 as [|i r1 IH]; intros h; simpl; [done|].
  destruct (body i h) as [[[]|e] h']; [apply IH | done].
Qed.

Lemma update_item_out f self i (h : gmap positive obj) o :
  h !! self = Some o -> Py.index (memlist o) i = None ->
  update_item f self i h = (Raise (out_of_range i), h).
Proof. intros Ho Hi. unfold update_item, getitem. by rewrite Ho, Hi. Qed.

(** The loop of [T] and [H] on a container with fewer than six
    components: the components there are go through [f], then the first
    missing position raises. *)
Lemma loop_on_short_container f self (h : gmap positive obj) o :
  h !! self = Some o ->
  (length (memlist o) < 6)%nat ->
  (forall l, l ∈ memlist o -> is_Some (attrs o !! l)) ->
  for_each (update_item f self) range6 h
  = (Raise (out_of_range (Z.of_nat (length (memlist o)))),
     <[self := set_attrs o (alter_all f (attrs o) (memlist o))]> h).
Proof.
  intros Ho Hlen Hattrs.
  assert (exists r1 r2, range6 = (r1 ++ Z.of_nat (length (memlist o)) :: r2)%list
                        /\ Forall2 (fun i l => Py.index (memlist o) i = Some l) r1 (memlist o)
                        /\ Py.index (memlist o) (Z.of_nat (length (memlist o))) = None)
    as (r1 & r2 & Hrange & Hr1 & Hout).
  { destruct (memlist o) as [|l0 [|l1 [|l2 [|l3 [|l4 [|l5 ls]]]]]]; simpl in Hlen; try lia.
    - exists [], [1; 2; 3; 4; 5]. repeat split. constructor.
    - exists [0], [2; 3; 4; 5]. repeat split. repeat constructor.
    - exists [0; 1], [3; 4; 5]. repeat split. repeat constructor.
    - exists [0; 1; 2], [4; 5]. repeat split. repeat constructor.
    - exists [0; 1; 2; 3], [5]. repeat split. repeat constructor.
    - exists [0; 1; 2; 3; 4], []. repeat split. repeat constructor. }
  rewrite Hrange, for_each_app, (for_each_update f self r1 (memlist o) h o Ho Hr1 Hattrs).
  cbn [for_each]. rewrite (update_item_out f self _ _ (set_attrs o (alter_all f (attrs o) (memlist o)))).
  - done.
  - by rewrite lookup_insert_eq.
  - exact Hout.
Qed.

(** X5: on a container that holds fewer than six components, [T] and
    [H] raise the IndexError naming the first missing position, and by
    then they have already replaced every component that is there: the
    failure leaves the container changed. *)
Theorem transposes_fail_late_on_short_containers
    (h : gmap positive obj) (self : positive) (o : obj) :
  h !! self = Some o ->
  (length (memlist o) < 6)%nat ->
  (forall l, l ∈ memlist o -> is_Some (attrs o !! l)) ->
  PyPOTypes.resContainer.T self h
  = (Raise (IndexError ("Index out of range: " +:+ str_int (Z.of_nat (length (memlist o))))),
     <[self := set_attrs o (alter_all np.T (attrs o) (memlist o))]> h)
  /\ PyPOTypes.resContainer.H self h
  = (Raise (IndexError ("Index out of range: " +:+ str_int (Z.of_nat (length (memlist o))))),
     <[self := set_attrs o (alter_all (fun a => np.T (np.conj a)) (attrs o) (memlist o))]> h)
  /\ (NoDup (memlist o) ->
      forall i a, getitem o i = Ok a ->
        getitem (set_attrs o (alter_all np.T (attrs o) (memlist o))) i = Ok (np.T a)).
Proof.
  intros Ho Hlen Hattrs. unfold T, H.
  rewrite !(loop_on_short_container _ self h o Ho Hlen Hattrs). repeat split.
  intros Hnd i a. by apply getitem_alter_all.
Qed.

(** X6: [T] and [H] replace the components and nothing else: the
    labels, the type tag and the shape and size recorded by the
    constructor stay as they were, while the shape of every component is
    reversed. *)
Theorem transposes_keep_recorded_shape
    (h : gmap positive obj) (self : positive) (o : obj) :
  h !! self = Some o -> six_members o -> NoDup (memlist o) ->
  exists o1 o2,
    PyPOTypes.resContainer.T self h = (Ok self, <[self := o1]> h)
    /\ PyPOTypes.resContainer.H self h = (Ok self, <[self := o2]> h)
    /\ (shape o1 = shape o /\ size o1 = size o /\ memlist o1 = memlist o /\ type o1 = type o)
    /\ (shape o2 = shape o /\ size o2 = size o /\ memlist o2 = memlist o /\ type o2 = type o)
    /\ forall i a, getitem o i = Ok a ->
         exists b1 b2, getitem o1 i = Ok b1 /\ getitem o2 i = Ok b2
                       /\ np.shape b1 = rev (np.shape a) /\ np.shape b2 = rev (np.shape a).
Proof.
  intros Ho [Hlen Hattrs] Hnd.
  exists (set_attrs o (alter_all np.T (attrs o) (memlist o))),
         (set_attrs o (alter_all (fun a => np.T (np.conj a)) (attrs o) (memlist o))).
  unfold T, H.
  rewrite !(for_each_update _ self range6 (memlist o) h o Ho (range6_labels o Hlen) Hattrs).
  repeat split. intros i a Ha.
  exists (np.T a), (np.T (np.conj a)).
  rewrite (getitem_alter_all np.T o i a Hnd Ha).
  by rewrite (getitem_alter_all (fun a => np.T (np.conj a)) o i a Hnd Ha).
Qed.

Section composing.
Context (f g : np.ndarray -> np.ndarray) (P : np.ndarray -> Prop).
Hypothesis f_keeps : forall a, P a -> P (f a).
Hypothesis g_keeps : forall a, P a -> P (g a).
Hypothesis commute : forall a, P a -> g (f a) = f (g a).

Lemma iter_through a n : P a -> P (Nat.iter n g a) /\ Nat.iter n g (f a) = f (Nat.iter n g a).
Proof.
  intros Ha. induction n as [|n [IHP IH]]; simpl; [done|].
  split; [by apply g_keeps|]. by rewrite IH, commute.
Qed.

Lemma iter_both a n :
  P a -> Nat.iter n g (Nat.iter n f a) = Nat.iter n (g ∘ f) a /\ P (Nat.iter n f a).
Proof.
  intros Ha. induction n as [|n [IH IHP]]; simpl; [done|].
  split; [|by apply f_keeps].
  by rewrite (proj2 (iter_through _ n IHP)), IH.
Qed.

Lemma alter_all_compose (m : gmap string np.ndarray) ls :
  (forall l a, m !! l = Some a -> P a) ->
  alter_all g (alter_all f m ls) ls = alter_all (g ∘ f) m ls.
Proof.
  intros Hm. apply map_eq. intros k. rewrite !lookup_alter_all.
  destruct (m !! k) as [a|] eqn:Hk; simpl; [|done].
  by rewrite (proj1 (iter_both a _ (Hm _ _ Hk))).
Qed.
End composing.

Lemma alter_all_ext f g (m : gmap string np.ndarray) ls (P : np.ndarray -> Prop) :
  (forall a, P a -> P (f a) /\ f a = g a) ->
  (forall l a, m !! l = Some a -> P a) ->
  alter_all f m ls = alter_all g m ls.
Proof.
  intros Hfg Hm. apply map_eq. intros k. rewrite !lookup_alter_all.
  destruct (m !! k) as [a|] eqn:Hk; simpl; [|done]. f_equal.
  pose proof (Hm _ _ Hk) as Ha. clear Hk. revert a Ha.
  induction (occurrences k ls) as [|n IH]; intros a Ha; [done|].
  rewrite !Nat.iter_succ_r, (proj2 (Hfg a Ha)).
  apply IH. rewrite <- (proj2 (Hfg a Ha)). by apply Hfg.
Qed.

(** X7: on a six-component container, [T] followed by [H] and [H]
    followed by [T] leave the same store: every component has become its
    complex conjugate, with its shape as before. *)
Theorem transpose_and_hermitian_commute
    (h : gmap positive obj) (self : positive) (o : obj) :
  h !! self = Some o -> six_members o -> wf_members o ->
  exists h_T h_H o2,
    PyPOTypes.resContainer.T self h = (Ok self, h_T)
    /\ PyPOTypes.resContainer.H self h = (Ok self, h_H)
    /\ PyPOTypes.resContainer.H self h_T = (Ok self, <[self := o2]> h)
    /\ PyPOTypes.resContainer.T self h_H = (Ok self, <[self := o2]> h)
    /\ (NoDup (memlist o) ->
        forall i a, getitem o i = Ok a -> getitem o2 i = Ok (np.conj a)).
Proof.
  intros Ho [Hlen Hattrs] Hwf.
  assert (forall (f : np.ndarray -> np.ndarray) l,
             l ∈ memlist o -> is_Some (alter_all f (attrs o) (memlist o) !! l)) as Hkept.
  { intros f l Hl. rewrite lookup_alter_all. destruct (Hattrs l Hl) as [a ->]. by eexists. }
  assert (forall f g : np.ndarray -> np.ndarray,
    for_each (update_item g self) range6
      (<[self := set_attrs o (alter_all f (attrs o) (memlist o))]> h)
    = (Ok (), <[self := set_attrs o (alter_all g (alter_all f (attrs o) (memlist o)) (memlist o))]> h))
    as Hsecond.
  { intros f g.
    rewrite (for_each_update g self range6 (memlist o) _
               (set_attrs o (alter_all f (attrs o) (memlist o)))).
    - by rewrite set_attrs_twice, attrs_set_attrs, insert_insert_eq.
    - by rewrite lookup_insert_eq.
    - exact (range6_labels o Hlen).
    - intros l Hl. rewrite attrs_set_attrs. by apply Hkept. }
  exists (<[self := set_attrs o (alter_all np.T (attrs o) (memlist o))]> h),
         (<[self := set_attrs o (alter_all (fun a => np.T (np.conj a)) (attrs o) (memlist o))]> h),
         (set_attrs o (alter_all np.conj (attrs o) (memlist o))).
  unfold T, H.
  rewrite !(for_each_update _ self range6 (memlist o) h o Ho (range6_labels o Hlen) Hattrs).
  rewrite !Hsecond.
  assert (alter_all (fun a => np.T (np.conj a)) (alter_all np.T (attrs o) (memlist o)) (memlist o)
          = alter_all np.conj (attrs o) (memlist o)) as ->.
  { rewrite (alter_all_compose np.T (fun a => np.T (np.conj a)) np.wf).
    - apply (alter_all_ext _ _ _ _ np.wf); [|exact Hwf].
      intros a Ha. unfold compose. split.
      + rewrite <- T_conj, (T_involutive _ (wf_conj _ Ha)). by apply wf_conj.
      + by rewrite <- T_conj, (T_involutive _ (wf_conj _ Ha)).
    - intros a _. apply wf_T.
    - intros a _. apply wf_T.
    - intros a Ha. cbv beta. by rewrite <- !T_conj.
    - exact Hwf. }
  assert (alter_all np.T (alter_all (fun a => np.T (np.conj a)) (attrs o) (memlist o)) (memlist o)
          = alter_all np.conj (attrs o) (memlist o)) as ->.
  { rewrite (alter_all_compose (fun a => np.T (np.conj a)) np.T np.wf).
    - apply (alter_all_ext _ _ _ _ np.wf); [|exact Hwf].
      intros a Ha. unfold compose. split.
      + rewrite (T_involutive _ (wf_conj _ Ha)). by apply wf_conj.
      + by rewrite (T_involutive _ (wf_conj _ Ha)).
    - intros a _. apply wf_T.
    - intros a _. apply wf_T.
    - intros a Ha. cbv beta. by rewrite <- !T_conj.
    - exact Hwf. }
  repeat split. intros Hnd i a. by apply getitem_alter_all.
Qed.

(** *** BindRefl.py: loading the library and reading the dictionary *)

Section loading.
Import BindRefl.

(** X9: [loadRefllib] takes the first of pyporefl.dll, libpyporefl.so
    and libpyporefl.dylib that loads, trying them in this order and
    nothing after a success. *)
Theorem loadRefllib_takes_first_that_loads (w : world) :
  (forall lib, CDLL w "pyporefl.dll" = Ok lib ->
     loadRefllib w = Run [Loaded "pyporefl.dll"] (Ok lib))
  /\ (forall e lib, CDLL w "pyporefl.dll" = Raise e -> CDLL w "libpyporefl.so" = Ok lib ->
     loadRefllib w = Run [Loaded "libpyporefl.so"] (Ok lib))
  /\ (forall e e' lib, CDLL w "pyporefl.dll" = Raise e -> CDLL w "libpyporefl.so" = Raise e' ->
     CDLL w "libpyporefl.dylib" = Ok lib ->
     loadRefllib w = Run [Loaded "libpyporefl.dylib"] (Ok lib)).
Proof.
  unfold loadRefllib, try_except, load. repeat split.
  - by intros lib ->.
  - by intros e lib -> ->.
  - by intros e e' lib -> -> ->.
Qed.

(** X10: when none of the three libraries loads, [generateGrid] and
    [generatePOGrid] raise the error of the last attempt (the .dylib
    one) without reading the dictionary: even a missing [gridsize] or
    [po_points] goes unreported. *)
Theorem load_failure_comes_first
    (w : world) (e1 e2 e3 : exn) (d : gmap string pyval) (transform spheric : bool) :
  CDLL w "pyporefl.dll" = Raise e1 ->
  CDLL w "libpyporefl.so" = Raise e2 ->
  CDLL w "libpyporefl.dylib" = Raise e3 ->
  loadRefllib w = Run [] (Raise e3)
  /\ generateGrid w d transform spheric = Run [] (Raise e3)
  /\ generatePOGrid w d transform = Run [] (Raise e3).
Proof.
  intros H1 H2 H3.
  assert (loadRefllib w = Run [] (Raise e3)) as Hload.
  { unfold loadRefllib, try_except, load. by rewrite H1, H2, H3. }
  split; [done|].
  unfold generateGrid, generatePOGrid. by rewrite !(bind_raise _ _ e3), Hload by by rewrite Hload.
Qed.

(** X11: with the library loaded, [generateGrid] reads [gridsize]
    before anything else of the dictionary: a missing key raises
    KeyError, an integer raises TypeError, a tuple of fewer than two
    entries raises IndexError, and in each case no native entry point
    has been called. *)
Theorem generateGrid_checks_gridsize_first
    (w : world) (lib : engine) (d : gmap string pyval) (transform spheric : bool) :
  outcome (loadRefllib w) = Ok lib ->
  (d !! "gridsize" = None ->
     generateGrid w d transform spheric
     = Run (log (loadRefllib w)) (Raise (KeyError "gridsize")))
  /\ (forall n, d !! "gridsize" = Some (VInt n) ->
     generateGrid w d transform spheric
     = Run (log (loadRefllib w)) (Raise (TypeError "'int' object is not subscriptable")))
  /\ (forall l, d !! "gridsize" = Some (VTuple l) -> (length l < 2)%nat ->
     generateGrid w d transform spheric
     = Run (log (loadRefllib w)) (Raise (IndexError "tuple index out of range")))
  /\ forall entry, NativeCall entry ∉ log (loadRefllib w).
Proof.
  intros Hload. unfold generateGrid. rewrite (bind_ok _ _ _ Hload). unfold dict_item.
  repeat split.
  - intros ->. simpl. by rewrite app_nil_r.
  - intros n ->. simpl. by rewrite app_nil_r.
  - intros l -> Hl. destruct l as [|a [|b l]]; simpl in Hl; try lia.
    + simpl. by rewrite app_nil_r.
    + simpl. by rewrite !app_nil_r.
  - intros entry [file Hfile]%loadRefllib_log. discriminate.
Qed.

(** X12: a dictionary that lacks both [po_points] and [name] makes
    [generatePOGrid] raise KeyError for [name], not the ValueError about
    [po_points]: building the message fails first. *)
Theorem generatePOGrid_needs_name_for_its_message
    (w : world) (lib : engine) (d : gmap string pyval) (transform : bool) :
  outcome (loadRefllib w) = Ok lib ->
  d !! "po_points" = None -> d !! "name" = None ->
  generatePOGrid w d transform = Run (log (loadRefllib w)) (Raise (KeyError "name")).
Proof.
  intros Hload Hpo Hname. unfold generatePOGrid.
  rewrite (bind_ok _ _ _ Hload), Hpo. unfold dict_item. rewrite Hname.
  simpl. by rewrite !app_nil_r.
Qed.
End loading.

(** *** Enums.py: names, aliases and conversion factors *)

(** X13: in every class of the catalogue but [Units] the values are
    pairwise different, so each name of the class body is a member of
    its own and [str] gives that name back.  In [Units] the value of
    THOU equals the value of MIL: the class has fifteen members, THOU is
    a second name of the member MIL, and [str(Units.THOU)] is MIL. *)
Theorem names_render_as_written_except_THOU :
  Forall (fun body =>
            Forall (fun nv => Enum.getattr (Enum.new body) nv.1 = Ok (Enum.Member nv.1 nv.2))
                   body)
         [Enum.FieldComponents; Enum.CurrentComponents; Enum.Projections; Enum.Scales;
          Enum.Objects; Enum.Modes; Enum.AperShapes; Enum.OptDoF; Enum.Dielectrics]
  /\ Enum.members (Enum.new Enum.Units)
     = (fun u => Enum.Member (Units_name u) (Enum.pair (Enums.Units_value u))) <$> all_Units
  /\ Forall (fun u => (m ← Enum.getattr (Enum.new Enum.Units) (Units_name u); Ok (Enum.str m))
                      = Ok (Units_name u)) all_Units
  /\ (m ← Enum.getattr (Enum.new Enum.Units) "THOU"; Ok (Enum.str m)) = Ok "MIL"
  /\ Enum.getattr (Enum.new Enum.Units) "THOU" = Enum.getattr (Enum.new Enum.Units) "MIL".
Proof. repeat split; repeat constructor. Qed.

Section conversions.
Import Enums.

(** X14: the factors of the members defined without reference to IN
    or RAD are, in double precision, M = 1000, CM = 10, MM = 1,
    UM = 0.001, DEG = 1, AM = 60 and AS = 3600; NM, computed as
    1e-9 * 1000, is 1.0000000000000002e-06, the double above 1e-6. *)
Theorem base_unit_factors :
  (Units_value M).1 = 1000%float
  /\ (Units_value CM).1 = 10%float
  /\ (Units_value MM).1 = 1%float
  /\ (Units_value UM).1 = 0.001%float
  /\ (Units_value NM).1 = 1.0000000000000002e-06%float
  /\ ((Units_value NM).1 =? 1e-6)%float = false
  /\ (Units_value NM).1 = next_up 1e-6%float
  /\ (Units_value DEG).1 = 1%float
  /\ (Units_value AM).1 = 60%float
  /\ (Units_value AS).1 = 3600%float.
Proof. repeat split. Qed.

(** X15: for every member of [Units], [number * member] and
    [member.rdiv(number)] give the product and the quotient by the
    member's factor: no factor is zero, so the division never raises
    ZeroDivisionError, and the only failure is the OverflowError of an
    integer too large for a double. *)
Theorem unit_conversions_are_defined (u : Units) :
  (forall x : float,
      number_op_member Mul (PFloat x) (OfUnits u) = Ok (PFloat (x * (Units_value u).1))
      /\ CustomEnumTuple_rdiv u (PFloat x) = Returned (Ok (PFloat (x / (Units_value u).1))))
  /\ (forall z : Z,
      is_infinity (float_of_Z z) = false ->
      number_op_member Mul (PInt z) (OfUnits u)
        = Ok (PFloat (float_of_Z z * (Units_value u).1))
      /\ CustomEnumTuple_rdiv u (PInt z)
        = Returned (Ok (PFloat (float_of_Z z / (Units_value u).1))))
  /\ (forall z : Z,
      is_infinity (float_of_Z z) = true ->
      number_op_member Mul (PInt z) (OfUnits u)
        = Raise (OverflowError "int too large to convert to float")
      /\ CustomEnumTuple_rdiv u (PInt z)
        = Returned (Raise (OverflowError "int too large to convert to float"))).
Proof.
  split; [|split].
  - intros x. split; [reflexivity | by destruct u].
  - intros z Hz. split.
    + change (number_op_member Mul (PInt z) (OfUnits u))
        with (mul_float (PInt z) (Units_value u).1).
      unfold mul_float, to_float. by rewrite Hz.
    + unfold CustomEnumTuple_rdiv, div_float, to_float. rewrite Hz. by destruct u.
  - intros z Hz. split.
    + change (number_op_member Mul (PInt z) (OfUnits u))
        with (mul_float (PInt z) (Units_value u).1).
      unfold mul_float, to_float. by rewrite Hz.
    + unfold CustomEnumTuple_rdiv, div_float, to_float. by rewrite Hz.
Qed.
End conversions.

(** *** setup.py: the resolved version and the build step *)

Lemma all_chars_no (p : ascii -> bool) (c : ascii) (s : string) :
  p c = false -> all_chars p s = true -> char_in c s = false.
Proof.
  intros Hc. induction s as [|d s IH]; simpl; [done|].
  intros [Hd Hs]%andb_true_iff. rewrite (IH Hs), orb_false_r.
  destruct (Ascii.eqb_spec c d) as [->|]; [congruence | done].
Qed.

Lemma scan_returns v lines :
  (forall c, first_char v = Some c -> is_quote c = false) ->
  (forall c, last_char v = Some c -> is_quote c = false) ->
  exists r, Setup.scan v lines = Ok r
            /\ (forall c, first_char r = Some c -> is_quote c = false)
            /\ (forall c, last_char r = Some c -> is_quote c = false).
Proof.
  intros Hfirst Hlast. induction lines as [|line lines IH]; simpl; [by exists v|].
  destruct (contains Setup.marker line); [|exact IH].
  unfold last_item. pose proof (split_nonempty "=" line) as Hne.
  destruct (rev (split "=" line)) as [|piece pieces] eqn:Hrev.
  { apply (f_equal (@rev string)) in Hrev. rewrite rev_involutive in Hrev. done. }
  simpl. eexists. split; [reflexivity|].
  destruct (strip_with_Stripped (fun c => char_in c Setup.quotes) (strip piece))
    as (pre & post & _ & _ & _ & Hf & Hl).
  split; [exact Hf | exact Hl].
Qed.

(** X16: version resolution never raises, whatever the lines are,
    and the string it yields neither starts nor ends with a quote
    character. *)
Theorem version_always_resolves (lines : list string) :
  exists v, Setup.version lines = Ok v
            /\ (forall c, first_char v = Some c -> is_quote c = false)
            /\ (forall c, last_char v = Some c -> is_quote c = false).
Proof. apply scan_returns; simpl; by intros c [= <-]. Qed.

(** X17: when the first line with the marker has only whitespace
    after its last equals sign, the resolved version is the empty
    string, not the default, and the lines after it are not looked
    at. *)
Theorem blank_version_is_empty_not_default
    (before after : list string) (line body tail : string) :
  Forall (fun l => ~ Substring Setup.marker l) before ->
  Substring Setup.marker line ->
  line = body +:+ String "=" tail ->
  all_chars isspace tail = true ->
  Setup.version (before ++ line :: after) = Ok EmptyString.
Proof.
  intros Hbefore Hline -> Htail. unfold Setup.version.
  rewrite (scan_skips _ _ _ Hbefore). simpl.
  apply contains_spec in Hline. rewrite Hline.
  rewrite (last_piece _ _ _ (all_chars_no isspace "=" tail eq_refl Htail)). simpl.
  unfold strip, strip_with. by rewrite (lstrip_all _ _ Htail).
Qed.

Section building.
Import build_ext.

Lemma spawned_app t1 t2 : spawned (t1 ++ t2) = (spawned t1 ++ spawned t2)%list.
Proof. apply omap_app. Qed.

Lemma build_cmake_succeeds (m : host) (self : command) (ext : string) (p : process) :
  isabs m (cwd p) = true ->
  mkdir m (cwd p) (build_temp self) = Ok () ->
  enter m (cwd p) (build_temp self) = Ok () ->
  (forall dir, enter m dir (cwd p) = Ok ()) ->
  (forall dir cmd, dry_run self = false ->
     cmd ∈ commands_for m self (cwd p) ext -> execute m dir cmd = Ok ()) ->
  exists p', build_cmake m self ext p = (Ok (), p')
             /\ cwd p' = cwd p
             /\ spawned (trace p') = (spawned (trace p) ++ commands_for m self (cwd p) ext)%list.
Proof.
  intros Habs Hmk Hin Hback Hexec. unfold build_cmake, commands_for in *.
  cbn [in_order make_dir]. rewrite Hmk.
  unfold chdir at 1. cbn [cwd record]. rewrite Hin.
  unfold spawn at 1. destruct (dry_run self) eqn:Hdry; cbn [negb in_order].
  - unfold chdir. rewrite Hback. eexists. split; [reflexivity|].
    cbn [cwd record trace]. rewrite Habs.
    split; [done|]. rewrite !spawned_app. simpl. by rewrite !app_nil_r.
  - rewrite Hexec by (done || by left).
    destruct (String.eqb (os_name m) "nt"); cbn [negb]; unfold spawn; rewrite Hdry;
      (rewrite Hexec by (done || (right; by left)));
      unfold chdir; rewrite Hback;
      (eexists; split; [reflexivity|]); cbn [cwd record trace]; rewrite Habs;
      (split; [done|]); rewrite !spawned_app; simpl; by rewrite !app_nil_r, <- ?app_assoc.
Qed.

(** X18: on a machine where the build directory can be made and
    entered, the starting directory can be entered again and, outside
    dry-run mode, the cmake commands succeed, [run] ends back in the
    directory it was started in and has handed to [spawn], for each
    extension in turn, the configure command and then, unless in dry-run
    mode, the build command (with [--config] and the build type outside
    Windows, bare on Windows); the build type passed is the one string
    [Release --j4]. *)
Theorem run_restores_the_working_directory (m : host) (self : command) (p : process) :
  isabs m (cwd p) = true ->
  mkdir m (cwd p) (build_temp self) = Ok () ->
  enter m (cwd p) (build_temp self) = Ok () ->
  (forall dir, enter m dir (cwd p) = Ok ()) ->
  (forall dir ext cmd, dry_run self = false -> ext ∈ extensions self ->
     cmd ∈ commands_for m self (cwd p) ext -> execute m dir cmd = Ok ()) ->
  exists p', run m self p = (Ok (), p')
             /\ cwd p' = cwd p
             /\ spawned (trace p')
                = (spawned (trace p)
                   ++ (extensions self ≫= commands_for m self (cwd p)))%list.
Proof.
  intros Habs Hmk Hin Hback. unfold run. generalize (extensions self) as exts.
  intros exts. revert p Habs Hmk Hin Hback.
  induction exts as [|ext exts IH]; intros p Habs Hmk Hin Hback Hexec.
  - exists p. simpl. by rewrite app_nil_r.
  - destruct (build_cmake_succeeds m self ext p Habs Hmk Hin Hback) as (p1 & Hrun & Hcwd & Hsp).
    { intros dir cmd Hdry Hcmd. apply (Hexec dir ext); [done | by left | done]. }
    rewrite fmap_cons. cbn [in_order]. rewrite Hrun.
    destruct (IH p1) as (p2 & Hrun2 & Hcwd2 & Hsp2).
    + by rewrite Hcwd.
    + by rewrite Hcwd.
    + by rewrite Hcwd.
    + by rewrite Hcwd.
    + intros dir ext' cmd Hdry Hext. rewrite Hcwd. apply Hexec; [done | by right].
    + exists p2. split; [done|]. split; [congruence|].
      rewrite Hsp2, Hsp, Hcwd, bind_cons. by rewrite app_assoc.
Qed.

(** X19: outside dry-run mode, when the configure command fails,
    [build_cmake] raises its error with the process left in the build
    directory: no build command is spawned and the working directory is
    not changed back. *)
Theorem failed_configure_leaves_the_build_directory
    (m : host) (self : command) (ext : string) (p : process) (e : exn) :
  dry_run self = false ->
  mkdir m (cwd p) (build_temp self) = Ok () ->
  enter m (cwd p) (build_temp self) = Ok () ->
  execute m (if isabs m (build_temp self) then build_temp self
             else join m (cwd p) (build_temp self))
    (["cmake"; cwd p] ++ cmake_args m (cwd p) ext)%list = Raise e ->
  exists p', build_cmake m self ext p = (Raise e, p')
             /\ cwd p' = (if isabs m (build_temp self) then build_temp self
                          else join m (cwd p) (build_temp self))
             /\ trace p' = (trace p ++ [Mkdir (build_temp self); Chdir (build_temp self);
                                        Spawn (["cmake"; cwd p] ++ cmake_args m (cwd p) ext)%list])%list.
Proof.
  intros Hdry Hmk Hin Hfail. unfold build_cmake. cbn [in_order make_dir]. rewrite Hmk.
  unfold chdir at 1. cbn [cwd record]. rewrite Hin.
  unfold spawn at 1. rewrite Hdry. cbn [cwd record trace] in *. rewrite Hfail.
  eexists. split; [reflexivity|]. split; [done|]. simpl. by rewrite <- !app_assoc.
Qed.
End building.

(** *** PyPOTypes.py: [po_currents] *)

(** X8: [po_currents] validates nothing but what [currents] does: it
    fails with IndexError exactly when [Jx] has fewer than two
    dimensions, and otherwise stores the seven grid arrays and the
    weights as given, whatever their shapes, the six currents under
    Jx..Mz, and the mode, which is [uv] when left out. *)
Theorem po_currents_checks_only_Jx
    (x y z nx ny nz area weights Jx Jy Jz Mx My Mz : np.ndarray) (mode : option string) :
  (forall r c more, np.shape Jx = r :: c :: more ->
     exists o, po_currents.init x y z nx ny nz area weights Jx Jy Jz Mx My Mz mode = Ok o
               /\ po_currents.grid o = PyPOTypes.new_reflGrids x y z nx ny nz area
               /\ PyPOTypes.S (po_currents.weights o) = weights
               /\ memlist (po_currents.currents o) = ["Jx"; "Jy"; "Jz"; "Mx"; "My"; "Mz"]
               /\ Forall2 (fun i a => getitem (po_currents.currents o) i = Ok a)
                    range6 [Jx; Jy; Jz; Mx; My; Mz]
               /\ po_currents.mode o = default "uv" mode)
  /\ ((length (np.shape Jx) < 2)%nat ->
      po_currents.init x y z nx ny nz area weights Jx Jy Jz Mx My Mz mode
      = Raise (IndexError "tuple index out of range")).
Proof.
  split.
  - intros r c more Hs. unfold po_currents.init, PyPOTypes.currents.
    rewrite (init_six "J" "M" EmptyString _ _ _ _ _ _ _ _ _ Hs).
    eexists. split; [reflexivity|]. cbn [po_currents.grid po_currents.weights
      po_currents.currents po_currents.mode PyPOTypes.S].
    repeat split; try (by destruct mode). repeat constructor.
  - intros Hdim. unfold po_currents.init, PyPOTypes.currents, init.
    rewrite index_0. cbn [mbind result_bind bind].
    destruct (np.shape Jx) as [|r [|c more]]; simpl in Hdim; try lia; reflexivity.
Qed.

(** *** Instances *)

Lemma sample_fields_NoDup : NoDup (memlist sample_fields).
Proof. apply NoDup_ListNoDup. repeat constructor; simpl; intuition discriminate. Qed.

Lemma sample_short_attrs l : l ∈ memlist sample_short -> is_Some (attrs sample_short !! l).
Proof.
  intros Hl. simpl in Hl.
  repeat (apply elem_of_cons in Hl as [->|Hl]; [vm_compute; by eexists|]).
  by apply elem_of_nil in Hl.
Qed.

Lemma wrappers_store_arguments_in_order_witness :
  (exists o, PyPOTypes.fields sample_matrix row_vector cube row_vector cube complex_matrix = Ok o
             /\ type o = "EH"
             /\ memlist o = ["Ex"; "Ey"; "Ez"; "Hx"; "Hy"; "Hz"]
             /\ Forall2 (fun i a => getitem o i = Ok a) range6
                  (six sample_matrix row_vector cube row_vector cube complex_matrix))
  /\ (exists o, PyPOTypes.currents sample_matrix row_vector cube row_vector cube complex_matrix = Ok o
             /\ type o = "JM"
             /\ memlist o = ["Jx"; "Jy"; "Jz"; "Mx"; "My"; "Mz"]
             /\ Forall2 (fun i a => getitem o i = Ok a) range6
                  (six sample_matrix row_vector cube row_vector cube complex_matrix)).
Proof.
  apply (wrappers_store_arguments_in_order sample_matrix row_vector cube row_vector cube
           complex_matrix 2%nat 3%nat []).
  reflexivity.
Defined.

Lemma repeated_letter_overwrites_first_triplet_witness :
  exists o, init [sample_matrix; row_vector; cube; complex_matrix; cube; row_vector] (Some "EE") = Ok o
            /\ Forall2 (fun i a => getitem o i = Ok a) range6
                 [complex_matrix; cube; row_vector; complex_matrix; cube; row_vector].
Proof.
  apply (repeated_letter_overwrites_first_triplet "E" EmptyString sample_matrix row_vector cube
           complex_matrix cube row_vector 2%nat 3%nat []).
  reflexivity.
Defined.

Lemma setitem_changes_one_component_witness :
  getitem (set_attrs sample_fields (<["Hz" := row_vector]> (attrs sample_fields))) (-1)
    = Ok row_vector
  /\ getitem (set_attrs sample_fields (<["Hz" := row_vector]> (attrs sample_fields))) 2
     = getitem sample_fields 2
  /\ memlist (set_attrs sample_fields (<["Hz" := row_vector]> (attrs sample_fields)))
     = memlist sample_fields
  /\ shape (set_attrs sample_fields (<["Hz" := row_vector]> (attrs sample_fields)))
     = shape sample_fields
  /\ size (set_attrs sample_fields (<["Hz" := row_vector]> (attrs sample_fields)))
     = size sample_fields
  /\ type (set_attrs sample_fields (<["Hz" := row_vector]> (attrs sample_fields)))
     = type sample_fields.
Proof.
  apply (setitem_changes_one_component sample_fields _ (-1) 2 row_vector).
  - exact sample_fields_six.
  - exact sample_fields_NoDup.
  - lia.
  - lia.
  - vm_compute. discriminate.
  - reflexivity.
Defined.

Lemma transposes_fail_late_on_short_containers_witness :
  PyPOTypes.resContainer.T 1%positive {[1%positive := sample_short]}
  = (Raise (IndexError ("Index out of range: " +:+ str_int (Z.of_nat (length (memlist sample_short))))),
     <[1%positive := set_attrs sample_short (alter_all np.T (attrs sample_short) (memlist sample_short))]>
       {[1%positive := sample_short]})
  /\ PyPOTypes.resContainer.H 1%positive {[1%positive := sample_short]}
  = (Raise (IndexError ("Index out of range: " +:+ str_int (Z.of_nat (length (memlist sample_short))))),
     <[1%positive := set_attrs sample_short
                       (alter_all (fun a => np.T (np.conj a)) (attrs sample_short)
                          (memlist sample_short))]>
       {[1%positive := sample_short]})
  /\ (NoDup (memlist sample_short) ->
      forall i a, getitem sample_short i = Ok a ->
        getitem (set_attrs sample_short (alter_all np.T (attrs sample_short) (memlist sample_short))) i
        = Ok (np.T a)).
Proof.
  apply (transposes_fail_late_on_short_containers {[1%positive := sample_short]} 1%positive
           sample_short).
  - apply lookup_singleton_eq.
  - simpl. lia.
  - exact sample_short_attrs.
Defined.

Lemma transposes_keep_recorded_shape_witness :
  exists o1 o2,
    PyPOTypes.resContainer.T 1%positive {[1%positive := sample_fields]}
      = (Ok 1%positive, <[1%positive := o1]> {[1%positive := sample_fields]})
    /\ PyPOTypes.resContainer.H 1%positive {[1%positive := sample_fields]}
      = (Ok 1%positive, <[1%positive := o2]> {[1%positive := sample_fields]})
    /\ (shape o1 = shape sample_fields /\ size o1 = size sample_fields
        /\ memlist o1 = memlist sample_fields /\ type o1 = type sample_fields)
    /\ (shape o2 = shape sample_fields /\ size o2 = size sample_fields
        /\ memlist o2 = memlist sample_fields /\ type o2 = type sample_fields)
    /\ forall i a, getitem sample_fields i = Ok a ->
         exists b1 b2, getitem o1 i = Ok b1 /\ getitem o2 i = Ok b2
                       /\ np.shape b1 = rev (np.shape a) /\ np.shape b2 = rev (np.shape a).
Proof.
  apply (transposes_keep_recorded_shape {[1%positive := sample_fields]} 1%positive sample_fields).
  - apply lookup_singleton_eq.
  - exact sample_fields_six.
  - exact sample_fields_NoDup.
Defined.

Lemma transpose_and_hermitian_commute_witness :
  exists h_T h_H o2,
    PyPOTypes.resContainer.T 1%positive {[1%positive := sample_fields]} = (Ok 1%positive, h_T)
    /\ PyPOTypes.resContainer.H 1%positive {[1%positive := sample_fields]} = (Ok 1%positive, h_H)
    /\ PyPOTypes.resContainer.H 1%positive h_T
       = (Ok 1%positive, <[1%positive := o2]> {[1%positive := sample_fields]})
    /\ PyPOTypes.resContainer.T 1%positive h_H
       = (Ok 1%positive, <[1%positive := o2]> {[1%positive := sample_fields]})
    /\ (NoDup (memlist sample_fields) ->
        forall i a, getitem sample_fields i = Ok a -> getitem o2 i = Ok (np.conj a)).
Proof.
  apply (transpose_and_hermitian_commute {[1%positive := sample_fields]} 1%positive sample_fields).
  - apply lookup_singleton_eq.
  - exact sample_fields_six.
  - exact sample_fields_wf.
Defined.

Section instances_of_bindings.
Import BindRefl.

Lemma load_failure_comes_first_witness :
  loadRefllib bare_world = Run [] (Raise (OSError "cannot open shared object file"))
  /\ generateGrid bare_world ∅ true true
     = Run [] (Raise (OSError "cannot open shared object file"))
  /\ generatePOGrid bare_world ∅ true
     = Run [] (Raise (OSError "cannot open shared object file")).
Proof.
  apply (load_failure_comes_first bare_world (OSError "cannot open shared object file")
           (OSError "cannot open shared object file")); reflexivity.
Defined.

Lemma generateGrid_checks_gridsize_first_witness :
  ((∅ : gmap string pyval) !! "gridsize" = None ->
     generateGrid sample_world ∅ true true
     = Run (log (loadRefllib sample_world)) (Raise (KeyError "gridsize")))
  /\ (forall n, (∅ : gmap string pyval) !! "gridsize" = Some (VInt n) ->
     generateGrid sample_world ∅ true true
     = Run (log (loadRefllib sample_world)) (Raise (TypeError "'int' object is not subscriptable")))
  /\ (forall l, (∅ : gmap string pyval) !! "gridsize" = Some (VTuple l) -> (length l < 2)%nat ->
     generateGrid sample_world ∅ true true
     = Run (log (loadRefllib sample_world)) (Raise (IndexError "tuple index out of range")))
  /\ forall entry, NativeCall entry ∉ log (loadRefllib sample_world).
Proof.
  apply (generateGrid_checks_gridsize_first sample_world sample_engine ∅ true true).
  reflexivity.
Defined.

Lemma generatePOGrid_needs_name_for_its_message_witness :
  generatePOGrid sample_world ∅ true
  = Run (log (loadRefllib sample_world)) (Raise (KeyError "name")).
Proof.
  apply (generatePOGrid_needs_name_for_its_message sample_world sample_engine ∅ true);
    reflexivity.
Defined.
End instances_of_bindings.

Lemma blank_version_is_empty_not_default_witness :
  Setup.version (["import os"] ++ "__version__ =  " :: ["__version__ = '1.0'"]) = Ok EmptyString.
Proof.
  apply (blank_version_is_empty_not_default ["import os"] ["__version__ = '1.0'"]
           "__version__ =  " "__version__ " "  ").
  - repeat constructor. intros H. apply contains_spec in H. discriminate.
  - apply contains_spec. reflexivity.
  - reflexivity.
  - reflexivity.
Defined.

Section instances_of_building.
Import build_ext.

Lemma run_restores_the_working_directory_witness :
  exists p', run (posix_host (fun _ => false)) sample_command sample_process = (Ok (), p')
             /\ cwd p' = cwd sample_process
             /\ spawned (trace p')
                = (spawned (trace sample_process)
                   ++ (extensions sample_command
                         ≫= commands_for (posix_host (fun _ => false)) sample_command
                              (cwd sample_process)))%list.
Proof.
  apply (run_restores_the_working_directory (posix_host (fun _ => false)) sample_command
           sample_process); reflexivity.
Defined.

Lemma failed_configure_leaves_the_build_directory_witness :
  exists p', build_cmake (posix_host (fun _ => true)) sample_command "PyPO/libs" sample_process
             = (Raise (OSError "command failed"), p')
             /\ cwd p' = (if isabs (posix_host (fun _ => true)) (build_temp sample_command)
                          then build_temp sample_command
                          else join (posix_host (fun _ => true)) (cwd sample_process)
                                 (build_temp sample_command))
             /\ trace p'
                = (trace sample_process
                   ++ [Mkdir (build_temp sample_command); Chdir (build_temp sample_command);
                       Spawn (["cmake"; cwd sample_process]
                              ++ cmake_args (posix_host (fun _ => true)) (cwd sample_process)
                                   "PyPO/libs")%list])%list.
Proof.
  apply (failed_configure_leaves_the_build_directory (posix_host (fun _ => true)) sample_command
           "PyPO/libs" sample_process); reflexivity.
Defined.

Example build_on_posix :
  run (posix_host (fun _ => false)) sample_command sample_process
  = (Ok (),
     {| cwd := "/home/user/PyPO";
        trace := [Mkdir "build/temp"; Chdir "build/temp";
                  Spawn ["cmake"; "/home/user/PyPO";
                         "-DCMAKE_LIBRARY_OUTPUT_DIRECTORY=/home/user/PyPO/build/lib/PyPO";
                         "-DCMAKE_BUILD_TYPE=Release --j4"];
                  Spawn ["cmake"; "--build"; "."; "--config"; "Release --j4"];
                  Chdir "/home/user/PyPO"] |}).
Proof. reflexivity. Qed.
End instances_of_building.
